(** * o1_web_crawler: the crawl-and-extract pipeline

    A shallow embedding of [examples/o1_web_crawler/o1_web_crawler.py]:
    [find_relevant_page_via_map], [find_objective_in_top_pages] and [main],
    with the Python exception flow written out as a state-and-exception
    monad.  The external services (the chat model, the mapping and scraping
    service, the JSON codec, the console prompt and the faults of the file
    system) are parameters of the development; a scripted instance of them
    runs the pipeline on concrete pages. *)

From Stdlib Require Import List String Ascii ZArith Lia Bool DecimalString.
Import ListNotations.
Open Scope string_scope.
Set Warnings "-register-all".

(** ** Python values *)

(** The exception classes that occur in the script.  All of them derive from
    [Exception]; [JSONDecodeError] is the one class [json] raises on text
    that is not JSON, [TimeoutError] is what [timeout_handler] raises when
    the alarm set by [main] goes off. *)
Inductive exn : Type :=
  | JSONDecodeError
  | TimeoutError
  | AttributeError
  | TypeError
  | KeyError
  | OSError
  | RequestException
  | OtherError (what : string).

(** The result of evaluating a Python expression: a value, or a raised
    exception. *)
Inductive res (A : Type) : Type :=
  | Ok (a : A)
  | Raise (e : exn).
Arguments Ok {A} a.
Arguments Raise {A} e.

(** What [json.loads] builds: [None], [bool], [int], [float], [str], [list]
    and [dict].  The script never computes with a float, so a float is kept
    as a decimal mantissa and exponent.  A [dict] keeps its keys in insertion
    order. *)
Inductive json : Type :=
  | JNull
  | JBool (b : bool)
  | JInt (z : Z)
  | JFloat (m e : Z)
  | JStr (s : string)
  | JArr (l : list json)
  | JObj (o : list (string * json)).

Fixpoint lookup (k : string) (o : list (string * json)) : option json :=
  match o with
  | [] => None
  | (k', v) :: o' => if String.eqb k k' then Some v else lookup k o'
  end.

(** [isinstance(v, list)] and [isinstance(v, dict)]. *)
Definition is_list (v : json) : bool :=
  match v with JArr _ => true | _ => false end.

Definition is_dict (v : json) : bool :=
  match v with JObj _ => true | _ => false end.

(** [k in d] for a dict [d]. *)
Definition has_key (k : string) (o : list (string * json)) : bool :=
  match lookup k o with Some _ => true | None => false end.

(** [v[k]] with a string key: a dict answers or raises [KeyError]; nothing
    else can be indexed by a string. *)
Definition getitem (v : json) (k : string) : res json :=
  match v with
  | JObj o => match lookup k o with Some x => Ok x | None => Raise KeyError end
  | _ => Raise TypeError
  end.

(** [v.get(k, default)]: only a dict has the method. *)
Definition dict_get (v : json) (k : string) (default : json) : res json :=
  match v with
  | JObj o => match lookup k o with Some x => Ok x | None => Ok default end
  | _ => Raise AttributeError
  end.

(** [len(v)]: defined on [list], [dict] and [str]. *)
Definition py_len (v : json) : res nat :=
  match v with
  | JArr l => Ok (List.length l)
  | JObj o => Ok (List.length o)
  | JStr s => Ok (String.length s)
  | _ => Raise TypeError
  end.

(** Truth value of [v] in [if v:]. *)
Definition truthy (v : json) : bool :=
  match v with
  | JNull => false
  | JBool b => b
  | JInt z => negb (Z.eqb z 0)
  | JFloat m _ => negb (Z.eqb m 0)
  | JStr s => negb (String.eqb s "")
  | JArr l => match l with [] => false | _ => true end
  | JObj o => match o with [] => false | _ => true end
  end.

Fixpoint chars (s : string) : list json :=
  match s with
  | EmptyString => []
  | String c s' => JStr (String c EmptyString) :: chars s'
  end.

(** The items Python iterates over in [for x in v]: the elements of a list,
    the keys of a dict, the characters of a str; anything else is not
    iterable. *)
Definition iterate (v : json) : res (list json) :=
  match v with
  | JArr l => Ok l
  | JObj o => Ok (map (fun kv => JStr (fst kv)) o)
  | JStr s => Ok (chars s)
  | _ => Raise TypeError
  end.

(** [target.extend(arg)]: the attribute is looked up first (only a list has
    it), then the argument is iterated and its items are appended at the
    end. *)
Definition extend (target arg : json) : res json :=
  match target with
  | JArr l =>
      match iterate arg with
      | Ok items => Ok (JArr (l ++ items))
      | Raise e => Raise e
      end
  | _ => Raise AttributeError
  end.

(** The document [{"vendors": all_vendors}] handed to [json.dump]. *)
Definition vendors_doc (all_vendors : json) : json :=
  JObj [("vendors", all_vendors)].

(** [all_vendors.extend]: the bound method, when the object has one. *)
Definition extend_method (target : json) : res (json -> res json) :=
  match target with
  | JArr _ => Ok (extend target)
  | _ => Raise AttributeError
  end.

(** ** Console, calls and state *)

(** The two prompts sent to the model; each stands for the f-string of the
    source, determined by the values interpolated into it. *)
Inductive prompt : Type :=
  | map_prompt (objective : string)
  | check_prompt (objective : string) (markdown : json).

(** The lines the script prints, one constructor per [print], with the
    values it interpolates. *)
Inductive msg : Type :=
  | MsgObjective (objective : string)
  | MsgSearchSite (url : string)
  | MsgAnalyzing
  | MsgSearchParameter (p : option string)
  | MsgMapping
  | MsgMapDone
  | MsgLocated (n : nat)
  | MsgMapError (e : exn)
  | MsgStartFresh
  | MsgScrape (link : string)
  | MsgScrapeDone
  | MsgExtracted (n : nat)
  | MsgSaved
  | MsgParseError
  | MsgPageError (link : string) (e : exn)
  | MsgInitiating
  | MsgRelevantPages
  | MsgFulfilled (n : nat)
  | MsgNoVendors
  | MsgNoPages
  | MsgTimedOut.

(** How one [open(output_file, 'w')] / [json.dump] pair ends: the document is
    written in full, [open] raises and the file is untouched, or [json.dump]
    raises after the file was truncated and partly written. *)
Inductive write_result : Type :=
  | Written
  | OpenFailed (e : exn)
  | DumpFailed (e : exn) (partial : string).

(** What the script does to the outside, in order. *)
Inductive event : Type :=
  | Print (m : msg)
  | Alarm (seconds : nat)
  | Input (question : string)
  | ChatCreate (model : string) (p : prompt)
  | MapUrl (url : string) (search : option string)
  | ScrapeUrl (link : string)
  | Save (doc : json) (r : write_result).

Definition is_JSONDecodeError (e : exn) : bool :=
  match e with JSONDecodeError => true | _ => false end.

Definition is_TimeoutError (e : exn) : bool :=
  match e with TimeoutError => true | _ => false end.

(** [except Exception]: every class of [exn] derives from [Exception]. *)
Definition is_Exception (e : exn) : bool := true.

(** ** The pipeline *)

Section Pipeline.

(** The state of everything outside the process: the services, the user at
    the console, the clock behind the alarm.  It is opaque to the script. *)
Variable W : Type.

(** [FirecrawlApp]: [map_url(url, params={"search": s})] and
    [scrape_url(link, params={'formats': ['markdown']})]. *)
Record FirecrawlApp : Type := {
  map_url : string -> option string -> W -> res (list string) * W;
  scrape_url : string -> W -> res json * W
}.

(** [OpenAI]: [chat.completions.create(model, messages)] followed by
    [.choices[0].message.content], which is a [str] or [None]. *)
Record OpenAI : Type := {
  chat_completions_create : string -> prompt -> W -> res (option string) * W
}.

(** [json.loads] on a text and the text [json.dump(_, f, indent=2)] writes. *)
Variable json_loads : string -> res json.
Variable json_dumps : json -> string.

(** [input(question)], and how the next write to the result file ends. *)
Variable input : string -> W -> res string * W.
Variable fs_write : W -> write_result * W.

(** The process state: the outside world, the content of
    [o1_web_crawler_results.json] (absent when [None]), what was done so far,
    and the list object bound to [all_vendors]. *)
Record state : Type := mkState {
  world : W;
  disk : option string;
  trace : list event;
  all_vendors : json
}.

Definition M (A : Type) : Type := state -> res A * state.

Definition ret {A} (a : A) : M A := fun s => (Ok a, s).

Definition raise {A} (e : exn) : M A := fun s => (Raise e, s).

Definition bind {A B} (m : M A) (k : A -> M B) : M B :=
  fun s =>
    match m s with
    | (Ok a, s') => k a s'
    | (Raise e, s') => (Raise e, s')
    end.

Notation "x <- m ;; k" := (bind m (fun x => k))
  (at level 61, m at next level, right associativity).
Notation "m ;; k" := (bind m (fun _ => k))
  (at level 61, right associativity).

(** [try: body  except <class>: handler]. *)
Definition try_except {A} (body : M A) (catches : exn -> bool)
    (handler : exn -> M A) : M A :=
  fun s =>
    match body s with
    | (Ok a, s') => (Ok a, s')
    | (Raise e, s') => if catches e then handler e s' else (Raise e, s')
    end.

(** [try: body  finally: final]. *)
Definition try_finally {A} (body : M A) (final : M unit) : M A :=
  fun s =>
    match body s with
    | (r, s') =>
        match final s' with
        | (Ok _, s'') => (r, s'')
        | (Raise e, s'') => (Raise e, s'')
        end
    end.

Definition lift {A} (r : res A) : M A := fun s => (r, s).

Definition emit (e : event) : M unit :=
  fun s => (Ok tt, mkState (world s) (disk s) (trace s ++ [e]) (all_vendors s)).

Definition print (m : msg) : M unit := emit (Print m).

(** A call to the outside: the event is recorded and the world answers. *)
Definition call {A} (e : event) (f : W -> res A * W) : M A :=
  fun s =>
    match f (world s) with
    | (r, w') => (r, mkState w' (disk s) (trace s ++ [e]) (all_vendors s))
    end.

Definition get_all_vendors : M json := fun s => (Ok (all_vendors s), s).

Definition set_all_vendors (v : json) : M unit :=
  fun s => (Ok tt, mkState (world s) (disk s) (trace s) v).

(** [os.path.exists(output_file)]. *)
Definition path_exists : M bool :=
  fun s => (Ok (match disk s with Some _ => true | None => false end), s).

(** [with open(output_file, 'r') as f: json.load(f)]. *)
Definition json_load : M json :=
  fun s =>
    match disk s with
    | Some text => (json_loads text, s)
    | None => (Raise OSError, s)
    end.

(** [json.loads(result)]: [None] is not a text. *)
Definition loads (result : option string) : M json :=
  match result with
  | Some text => lift (json_loads text)
  | None => raise TypeError
  end.

(** [with open(output_file, 'w') as f: json.dump(doc, f, indent=2)]. *)
Definition json_dump (doc : json) : M unit :=
  fun s =>
    match fs_write (world s) with
    | (Written, w') =>
        (Ok tt, mkState w' (Some (json_dumps doc))
                  (trace s ++ [Save doc Written]) (all_vendors s))
    | (OpenFailed e, w') =>
        (Raise e, mkState w' (disk s)
                    (trace s ++ [Save doc (OpenFailed e)]) (all_vendors s))
    | (DumpFailed e partial, w') =>
        (Raise e, mkState w' (Some partial)
                    (trace s ++ [Save doc (DumpFailed e partial)]) (all_vendors s))
    end.

Fixpoint for_each {A} (l : list A) (body : A -> M unit) : M unit :=
  match l with
  | [] => ret tt
  | x :: l' => body x ;; for_each l' body
  end.

(** Lines 35-70. *)
Definition find_relevant_page_via_map (objective url : string)
    (app : FirecrawlApp) (client : OpenAI) : M (option (list string)) :=
  try_except
    (print (MsgObjective objective) ;;
     print (MsgSearchSite url) ;;
     let map_prompt := map_prompt objective in
     print MsgAnalyzing ;;
     map_search_parameter <-
       call (ChatCreate "gpt-3.5-turbo" map_prompt)
            (chat_completions_create client "gpt-3.5-turbo" map_prompt) ;;
     print (MsgSearchParameter map_search_parameter) ;;
     print MsgMapping ;;
     map_website <-
       call (MapUrl url map_search_parameter)
            (map_url app url map_search_parameter) ;;
     print MsgMapDone ;;
     print (MsgLocated (List.length map_website)) ;;
     ret (Some map_website))
    is_Exception
    (fun e => print (MsgMapError e) ;; ret None).

(** Lines 77-84: load existing data if the file exists. *)
Definition load_existing : M unit :=
  there <- path_exists ;;
  if there then
    try_except
      (existing_data <- json_load ;;
       vendors <- lift (dict_get existing_data "vendors" (JArr [])) ;;
       set_all_vendors vendors)
      is_JSONDecodeError
      (fun _ => print MsgStartFresh)
  else ret tt.

(** Lines 118-132: parse the response, extend, save. *)
Definition parse_and_save (result : option string) : M unit :=
  try_except
    (vendors <- loads result ;;
     (if is_list vendors then
        target <- get_all_vendors ;;
        method <- lift (extend_method target) ;;
        extended <- lift (method vendors) ;;
        set_all_vendors extended
      else
        match vendors with
        | JObj o =>
            if has_key "vendors" o then
              target <- get_all_vendors ;;
              method <- lift (extend_method target) ;;
              value <- lift (getitem vendors "vendors") ;;
              extended <- lift (method value) ;;
              set_all_vendors extended
            else ret tt
        | _ => ret tt
        end) ;;
     n <- lift (py_len vendors) ;;
     print (MsgExtracted n) ;;
     target <- get_all_vendors ;;
     json_dump (vendors_doc target) ;;
     print MsgSaved)
    is_JSONDecodeError
    (fun _ => print MsgParseError).

(** Lines 87-135: the body of the loop over [map_website]. *)
Definition process_link (objective : string) (app : FirecrawlApp)
    (client : OpenAI) (link : string) : M unit :=
  try_except
    (print (MsgScrape link) ;;
     scrape_result <- call (ScrapeUrl link) (scrape_url app link) ;;
     print MsgScrapeDone ;;
     markdown <- lift (getitem scrape_result "markdown") ;;
     let check_prompt := check_prompt objective markdown in
     result <-
       call (ChatCreate "gpt-3.5-turbo" check_prompt)
            (chat_completions_create client "gpt-3.5-turbo" check_prompt) ;;
     parse_and_save result)
    is_Exception
    (fun e => print (MsgPageError link e)).

(** Lines 73-137. *)
Definition find_objective_in_top_pages (map_website : list string)
    (objective : string) (app : FirecrawlApp) (client : OpenAI) : M json :=
  set_all_vendors (JArr []) ;;
  load_existing ;;
  for_each map_website (process_link objective app client) ;;
  get_all_vendors.

(** [if map_website:] on what [find_relevant_page_via_map] returned. *)
Definition links_truthy (map_website : option (list string)) : bool :=
  match map_website with
  | Some (_ :: _) => true
  | _ => false
  end.

(** Lines 140-168.  The alarm itself is in the world: when it goes off, the
    call that is waiting at that moment ends with [Raise TimeoutError]. *)
Definition main (app : FirecrawlApp) (client : OpenAI) : M unit :=
  emit (Alarm 1800) ;;
  try_finally
    (try_except
       (url <- call (Input "Enter the website to crawl: ")
                    (input "Enter the website to crawl: ") ;;
        objective <- call (Input "Enter your objective: ")
                          (input "Enter your objective: ") ;;
        print MsgInitiating ;;
        map_website <- find_relevant_page_via_map objective url app client ;;
        if links_truthy map_website then
          print MsgRelevantPages ;;
          found <- find_objective_in_top_pages
                     (match map_website with Some l => l | None => [] end)
                     objective app client ;;
          if truthy found then
            n <- lift (py_len found) ;;
            print (MsgFulfilled n)
          else print MsgNoVendors
        else print MsgNoPages)
       is_TimeoutError
       (fun _ => print MsgTimedOut))
    (emit (Alarm 0)).

End Pipeline.

Arguments mkState {W} _ _ _ _.
Arguments world {W} _.
Arguments disk {W} _.
Arguments trace {W} _.
Arguments all_vendors {W} _.
Arguments map_url {W} _ _ _ _.
Arguments scrape_url {W} _ _ _.
Arguments chat_completions_create {W} _ _ _ _.
Arguments find_relevant_page_via_map {W} _ _ _ _ _.
Arguments load_existing {W} _ _.
Arguments parse_and_save {W} _ _ _ _ _.
Arguments process_link {W} _ _ _ _ _ _ _ _.
Arguments find_objective_in_top_pages {W} _ _ _ _ _ _ _ _.
Arguments main {W} _ _ _ _ _ _ _.
Arguments for_each {W A} _ _ _.

(** ** Reading a trace *)

(** The documents of the saves that were written in full, oldest first. *)
Fixpoint written_docs (t : list event) : list json :=
  match t with
  | [] => []
  | Save doc Written :: t' => doc :: written_docs t'
  | _ :: t' => written_docs t'
  end.

(** The documents of all saves that were started, written or not. *)
Fixpoint save_calls (t : list event) : list json :=
  match t with
  | [] => []
  | Save doc _ :: t' => doc :: save_calls t'
  | _ :: t' => save_calls t'
  end.

(** The links handed to [scrape_url], oldest first. *)
Fixpoint scraped (t : list event) : list string :=
  match t with
  | [] => []
  | ScrapeUrl link :: t' => link :: scraped t'
  | _ :: t' => scraped t'
  end.

(** The search parameters handed to [map_url], oldest first. *)
Fixpoint searches (t : list event) : list (option string) :=
  match t with
  | [] => []
  | MapUrl _ search :: t' => search :: searches t'
  | _ :: t' => searches t'
  end.

(** The lines printed, oldest first. *)
Fixpoint printed (t : list event) : list msg :=
  match t with
  | [] => []
  | Print m :: t' => m :: printed t'
  | _ :: t' => printed t'
  end.

(** The calls that belong to the extraction of a page: a scrape, or a model
    call with the extraction prompt. *)
Definition is_extractor_call (e : event) : bool :=
  match e with
  | ScrapeUrl _ => true
  | ChatCreate _ (check_prompt _ _) => true
  | _ => false
  end.

(** The content of the result file after the events [t], from the text
    [json.dump] writes for a document: only a save changes it. *)
Fixpoint disk_after (dumps : json -> string) (d : option string)
    (t : list event) : option string :=
  match t with
  | [] => d
  | Save doc Written :: t' => disk_after dumps (Some (dumps doc)) t'
  | Save _ (DumpFailed _ partial) :: t' => disk_after dumps (Some partial) t'
  | _ :: t' => disk_after dumps d t'
  end.

(** [grows v v']: [v'] is [v] with items appended at the end (none, when [v]
    is not a list). *)
Inductive grows : json -> json -> Prop :=
  | grows_same (v : json) : grows v v
  | grows_append (l items : list json) : grows (JArr l) (JArr (l ++ items)).

(** Each value of the chain grows from the one before it, starting at [v]. *)
Fixpoint append_chain (v : json) (vs : list json) : Prop :=
  match vs with
  | [] => True
  | v' :: vs' => grows v v' /\ append_chain v' vs'
  end.


(** The records one page added: what [all_vendors] holds after the page
    beyond what it held before. *)
Definition page_yield (before after : json) : list json :=
  match before, after with
  | JArr l, JArr l' => skipn (List.length l) l'
  | _, _ => []
  end.

(** Whether the steps between [json.loads] and the save go through for the
    parsed value [v] when [all_vendors] is [target]: [extend] needs a list to
    extend and something to iterate, [len] a list, dict or str. *)
Definition reaches_save (target v : json) : bool :=
  match v with
  | JArr _ => is_list target
  | JObj o =>
      match lookup "vendors" o with
      | Some x =>
          is_list target &&
          match iterate x with Ok _ => true | Raise _ => false end
      | None => true
      end
  | JStr _ => true
  | _ => false
  end.

(** ** The wording of the specification *)


Definition is_space (c : ascii) : bool :=
  match nat_of_ascii c with
  | 9 | 10 | 11 | 12 | 13 | 28 | 29 | 30 | 31 | 32 => true
  | _ => false
  end.

Fixpoint lstrip (s : string) : string :=
  match s with
  | String c s' => if is_space c then lstrip s' else s
  | EmptyString => EmptyString
  end.

Fixpoint rev_string (acc s : string) : string :=
  match s with
  | EmptyString => acc
  | String c s' => rev_string (String c acc) s'
  end.

(** "The model's raw text response, trimmed": surrounding whitespace
    removed, as [str.strip()] does. *)
Definition spec_trimmed (s : string) : string :=
  rev_string "" (lstrip (rev_string "" (lstrip s))).

(** "The SearchPhrase sent to the mapping collaborator equals the model's
    raw text response with surrounding whitespace trimmed", for the events
    [t] of a ranking whose model call answered [raw]. *)
Definition spec_search_is_trimmed (raw : string) (t : list event) : Prop :=
  searches t = [Some (spec_trimmed raw)].

(** "If the document is present but its content is not valid JSON, it logs a
    warning and returns an empty ResultSet, leaving the corrupt content on
    disk", for a load that went from [s] to the result and state [r], where
    [json_load] is what reading the file gives. *)
Definition spec_load_fallback {W} (json_load : string -> res json)
    (s : state W) (r : res json * state W) : Prop :=
  forall text,
    disk s = Some text ->
    (forall v, json_load text <> Ok v) ->
    fst r = Ok (JArr []) /\
    In (Print MsgStartFresh) (trace (snd r)) /\
    disk (snd r) = Some text.

(** "Save is invoked if and only if that page's extraction yielded at least
    one record; on an empty extraction result the persisted document is
    unchanged", for a page that took the state from [s] to [s'] with the new
    events [new]. *)
Definition spec_save_iff_records {W} (s s' : state W) (new : list event) : Prop :=
  (save_calls new <> [] <-> page_yield (all_vendors s) (all_vendors s') <> []) /\
  (page_yield (all_vendors s) (all_vendors s') = [] -> disk s' = disk s).

(** ** A reference codec

    A decoder and an [indent=2] encoder for the part of JSON the examples
    use: no escapes inside strings, no fractions or exponents.  The theorems
    hold for every codec; this one makes the examples run on real text. *)

Module Codec.

Definition dquote : ascii := "034"%char.
Definition newline : ascii := "010"%char.

Definition is_ws (c : ascii) : bool :=
  match nat_of_ascii c with
  | 9 | 10 | 13 | 32 => true
  | _ => false
  end.

Fixpoint skip_ws (cs : list ascii) : list ascii :=
  match cs with
  | c :: cs' => if is_ws c then skip_ws cs' else cs
  | [] => []
  end.

Definition digit (c : ascii) : option Z :=
  let n := nat_of_ascii c in
  if (48 <=? n)%nat && (n <=? 57)%nat then Some (Z.of_nat (n - 48)) else None.

Fixpoint digits (acc : Z) (cs : list ascii) : Z * list ascii :=
  match cs with
  | c :: cs' =>
      match digit c with
      | Some d => digits (10 * acc + d) cs'
      | None => (acc, cs)
      end
  | [] => (acc, [])
  end.

(** After the opening quote, up to the closing one. *)
Fixpoint text (cs : list ascii) : option (string * list ascii) :=
  match cs with
  | [] => None
  | c :: cs' =>
      if Ascii.eqb c dquote then Some (EmptyString, cs')
      else if Ascii.eqb c "\"%char then None
      else if (nat_of_ascii c <? 32)%nat then None
      else match text cs' with
           | Some (s, rest) => Some (String c s, rest)
           | None => None
           end
  end.

(** An integer: a digit string without a leading zero, not followed by a
    fraction or an exponent. *)
Definition natural (cs : list ascii) : option (Z * list ascii) :=
  match cs with
  | c :: cs' =>
      match digit c with
      | Some d =>
          let '(z, rest) := if Z.eqb d 0 then (0%Z, cs') else digits d cs' in
          match rest with
          | r :: _ =>
              if Ascii.eqb r "."%char || Ascii.eqb r "e"%char || Ascii.eqb r "E"%char
              then None else Some (z, rest)
          | [] => Some (z, rest)
          end
      | None => None
      end
  | [] => None
  end.

Fixpoint starts (word : string) (cs : list ascii) : option (list ascii) :=
  match word, cs with
  | EmptyString, _ => Some cs
  | String w word', c :: cs' => if Ascii.eqb w c then starts word' cs' else None
  | String _ _, [] => None
  end.

(** A repeated key keeps its first position and takes the last value. *)
Fixpoint put (k : string) (v : json) (o : list (string * json)) : list (string * json) :=
  match o with
  | [] => [(k, v)]
  | (k', v') :: o' => if String.eqb k k' then (k, v) :: o' else (k', v') :: put k v o'
  end.

Fixpoint value (fuel : nat) (cs : list ascii) {struct fuel} : option (json * list ascii) :=
  match fuel with
  | O => None
  | S fuel' =>
      match skip_ws cs with
      | [] => None
      | c :: cs' =>
          if Ascii.eqb c "["%char then
            match skip_ws cs' with
            | c' :: rest =>
                if Ascii.eqb c' "]"%char then Some (JArr [], rest)
                else match items fuel' cs' with
                     | Some (l, rest') => Some (JArr l, rest')
                     | None => None
                     end
            | [] => None
            end
          else if Ascii.eqb c "{"%char then
            match skip_ws cs' with
            | c' :: rest =>
                if Ascii.eqb c' "}"%char then Some (JObj [], rest)
                else match members fuel' [] cs' with
                     | Some (o, rest') => Some (JObj o, rest')
                     | None => None
                     end
            | [] => None
            end
          else if Ascii.eqb c dquote then
            match text cs' with
            | Some (s, rest) => Some (JStr s, rest)
            | None => None
            end
          else if Ascii.eqb c "-"%char then
            match natural cs' with
            | Some (z, rest) => Some (JInt (- z), rest)
            | None => None
            end
          else
            match natural (c :: cs') with
            | Some (z, rest) => Some (JInt z, rest)
            | None =>
                match starts "null" (c :: cs') with
                | Some rest => Some (JNull, rest)
                | None =>
                    match starts "true" (c :: cs') with
                    | Some rest => Some (JBool true, rest)
                    | None =>
                        match starts "false" (c :: cs') with
                        | Some rest => Some (JBool false, rest)
                        | None => None
                        end
                    end
                end
            end
      end
  end

with items (fuel : nat) (cs : list ascii) {struct fuel} : option (list json * list ascii) :=
  match fuel with
  | O => None
  | S fuel' =>
      match value fuel' cs with
      | Some (v, rest) =>
          match skip_ws rest with
          | c :: rest' =>
              if Ascii.eqb c ","%char then
                match items fuel' rest' with
                | Some (l, rest'') => Some (v :: l, rest'')
                | None => None
                end
              else if Ascii.eqb c "]"%char then Some ([v], rest')
              else None
          | [] => None
          end
      | None => None
      end
  end

with members (fuel : nat) (acc : list (string * json)) (cs : list ascii) {struct fuel}
    : option (list (string * json) * list ascii) :=
  match fuel with
  | O => None
  | S fuel' =>
      match skip_ws cs with
      | q :: cs' =>
          if Ascii.eqb q dquote then
            match text cs' with
            | Some (k, rest) =>
                match skip_ws rest with
                | colon :: rest' =>
                    if Ascii.eqb colon ":"%char then
                      match value fuel' rest' with
                      | Some (v, rest'') =>
                          match skip_ws rest'' with
                          | c :: rest3 =>
                              if Ascii.eqb c ","%char then members fuel' (put k v acc) rest3
                              else if Ascii.eqb c "}"%char then Some (put k v acc, rest3)
                              else None
                          | [] => None
                          end
                      | None => None
                      end
                    else None
                | [] => None
                end
            | None => None
            end
          else None
      | [] => None
      end
  end.

(** [json.loads]: one value, whitespace around it, nothing else. *)
Definition loads (s : string) : res json :=
  let cs := list_ascii_of_string s in
  match value (2 * List.length cs + 2) cs with
  | Some (v, rest) =>
      match skip_ws rest with
      | [] => Ok v
      | _ :: _ => Raise JSONDecodeError
      end
  | None => Raise JSONDecodeError
  end.

Fixpoint spaces (n : nat) : string :=
  match n with
  | O => EmptyString
  | S n' => String " "%char (spaces n')
  end.

Definition quoted (s : string) : string :=
  String dquote (s ++ String dquote EmptyString).

Definition break (level : nat) : string :=
  String newline (spaces (2 * level)).

Definition decimal (z : Z) : string :=
  NilZero.string_of_int (Z.to_int z).

Fixpoint dumps_at (level : nat) (v : json) {struct v} : string :=
  match v with
  | JNull => "null"
  | JBool true => "true"
  | JBool false => "false"
  | JInt z => decimal z
  | JFloat m e => decimal m ++ "e" ++ decimal e
  | JStr s => quoted s
  | JArr [] => "[]"
  | JArr (x :: l) =>
      "[" ++ break (S level) ++ dumps_at (S level) x ++
      (fix more (l : list json) : string :=
         match l with
         | [] => EmptyString
         | y :: l' => "," ++ break (S level) ++ dumps_at (S level) y ++ more l'
         end) l ++
      break level ++ "]"
  | JObj [] => "{}"
  | JObj ((k, x) :: o) =>
      "{" ++ break (S level) ++ quoted k ++ ": " ++ dumps_at (S level) x ++
      (fix more (o : list (string * json)) : string :=
         match o with
         | [] => EmptyString
         | (k', y) :: o' =>
             "," ++ break (S level) ++ quoted k' ++ ": " ++ dumps_at (S level) y ++ more o'
         end) o ++
      break level ++ "}"
  end.

(** The text [json.dump(doc, f, indent=2)] writes. *)
Definition dumps (v : json) : string := dumps_at 0 v.

(** A text between double quotes, for writing JSON in the examples. *)
Definition q (s : string) : string := quoted s.

End Codec.

(** ** A scripted outside

    The outside as a script: each kind of call takes the next answer of its
    list.  A call with no answer left raises, a write with no entry left
    succeeds. *)

Module Scripted.

Record script : Type := mkScript {
  answers : list (res (option string));
  maps : list (res (list string));
  pages : list (res json);
  typed : list (res string);
  writes : list write_result
}.

Definition exhausted : exn := OtherError "no answer scripted".

Definition chat (model : string) (p : prompt) (w : script) : res (option string) * script :=
  match answers w with
  | a :: rest => (a, mkScript rest (maps w) (pages w) (typed w) (writes w))
  | [] => (Raise exhausted, w)
  end.

Definition map_site (url : string) (search : option string) (w : script)
    : res (list string) * script :=
  match maps w with
  | a :: rest => (a, mkScript (answers w) rest (pages w) (typed w) (writes w))
  | [] => (Raise exhausted, w)
  end.

Definition scrape (link : string) (w : script) : res json * script :=
  match pages w with
  | a :: rest => (a, mkScript (answers w) (maps w) rest (typed w) (writes w))
  | [] => (Raise exhausted, w)
  end.

Definition input (question : string) (w : script) : res string * script :=
  match typed w with
  | a :: rest => (a, mkScript (answers w) (maps w) (pages w) rest (writes w))
  | [] => (Raise exhausted, w)
  end.

Definition fs_write (w : script) : write_result * script :=
  match writes w with
  | a :: rest => (a, mkScript (answers w) (maps w) (pages w) (typed w) rest)
  | [] => (Written, w)
  end.

Definition app : FirecrawlApp script :=
  {| map_url := map_site; scrape_url := scrape |}.

Definition client : OpenAI script :=
  {| chat_completions_create := chat |}.

(** A process about to start: nothing done yet. *)
Definition start (w : script) (file : option string) : state script :=
  mkState w file [] (JArr []).

Definition run_main (w : script) (file : option string) : res unit * state script :=
  main Codec.loads Codec.dumps input fs_write app client (start w file).

Definition run_pages (links : list string) (objective : string) (w : script)
    (file : option string) : res json * state script :=
  find_objective_in_top_pages Codec.loads Codec.dumps fs_write
    links objective app client (start w file).

Definition run_map (objective url : string) (w : script)
    : res (option (list string)) * state script :=
  find_relevant_page_via_map objective url app client (start w None).

(** A scraped page with the given markdown. *)
Definition page (markdown : string) : res json :=
  Ok (JObj [("markdown", JStr markdown)]).

Definition says (s : string) : res (option string) := Ok (Some s).

End Scripted.

(** ** Concrete runs *)

Module Examples.

Import Codec Scripted.

Definition vendor (name : string) : json := JObj [("name", JStr name)].

Definition site : string := "http://site.test".
Definition goal_text : string := "find vendors".
Definition link1 : string := "http://site.test/a".
Definition link2 : string := "http://site.test/b".
Definition link3 : string := "http://site.test/c".

(** The texts [[{"name":"A"}]], [{"vendors":[{"name":"A"},{"name":"B"}]}],
    [{"vendors":[{"name":"Existing"}]}] and [[{"name":"Existing"}]]. *)
Definition named (name : string) : string :=
  "{" ++ q "name" ++ ":" ++ q name ++ "}".
Definition array_of (name : string) : string := "[" ++ named name ++ "]".
Definition two_vendors_text : string :=
  "{" ++ q "vendors" ++ ":[" ++ named "A" ++ "," ++ named "B" ++ "]}".
Definition existing_file : string :=
  "{" ++ q "vendors" ++ ":[" ++ named "Existing" ++ "]}".
Definition array_file : string := array_of "Existing".

(** One page whose response is the object with two vendors, on top of one
    record already held. *)
Definition two_vendors_before : state script :=
  mkState (mkScript [says two_vendors_text] [] [page "# Vendors"] [] [])
          None [] (JArr [vendor "Existing"]).

(** One page whose response is the empty array [[]], no file yet. *)
Definition no_vendors_before : state script :=
  start (mkScript [says "[]"] [] [page "# Nothing here"] [] []) None.

Definition no_vendors_after : state script :=
  snd (process_link loads dumps fs_write goal_text app client link1 no_vendors_before).

(** The model answers the search question with blanks around the word. *)
Definition padded_world : script :=
  mkScript [says " pricing "] [Ok [link1]] [] [] [].

(** The mapping call finds nothing. *)
Definition empty_map_world : script :=
  mkScript [says "vendors"] [Ok []] [] [Ok site; Ok goal_text] [].

(** Two links; the alarm goes off while the first page is being fetched. *)
Definition timeout_in_fetch_world : script :=
  mkScript [says "vendors"; says (array_of "A")] [Ok [link1; link2]]
           [Raise TimeoutError; page "# A"] [Ok site; Ok goal_text] [].

(** The alarm goes off while the model is asked for the search parameter. *)
Definition timeout_in_ranking_world : script :=
  mkScript [Raise TimeoutError] [Ok [link1]] [page "# A"] [Ok site; Ok goal_text] [].

(** The alarm goes off while the user is typing the objective. *)
Definition timeout_at_console_world : script :=
  mkScript [] [] [] [Ok site; Raise TimeoutError] [].

(** One link to process, with a top-level array in the result file. *)
Definition one_link_world : script :=
  mkScript [says "vendors"; says (array_of "New")] [Ok [link1]]
           [page "# New"] [Ok site; Ok goal_text] [].

(** Three links; the fetch of the second fails. *)
Definition three_links_world : script :=
  mkScript [says (array_of "A"); says (array_of "C")] []
           [page "# A"; Raise RequestException; page "# C"] [] [].

End Examples.

(** ** Further readings of a trace *)

(** The prompts sent to the model, oldest first. *)
Fixpoint model_calls (t : list event) : list prompt :=
  match t with
  | [] => []
  | ChatCreate _ p :: t' => p :: model_calls t'
  | _ :: t' => model_calls t'
  end.

(** The arguments of [signal.alarm], oldest first. *)
Fixpoint alarms (t : list event) : list nat :=
  match t with
  | [] => []
  | Alarm n :: t' => n :: alarms t'
  | _ :: t' => alarms t'
  end.

(** The questions put to the user, oldest first. *)
Fixpoint questions (t : list event) : list string :=
  match t with
  | [] => []
  | Input question :: t' => question :: questions t'
  | _ :: t' => questions t'
  end.

(** The result file holds the text [json.dump] writes for
    [{"vendors": all_vendors}], with [all_vendors] as it is in memory. *)
Definition in_sync {W} (dumps : json -> string) (s : state W) : Prop :=
  disk s = Some (dumps (vendors_doc (all_vendors s))).

(** ** Further concrete runs *)

Module Cases.

Import Codec Scripted Examples.

(** A file system on which every write succeeds. *)
Definition reliable (w : script) : write_result * script := (Written, w).

(** The scraped page has no [markdown] key. *)
Definition bare_page_world : script :=
  mkScript [says (array_of "A")] [] [Ok (JObj [("html", JStr "<p>A</p>")])] [] [].

(** The model answers the number [5]. *)
Definition number_world : script :=
  mkScript [says "5"] [] [page "# A"] [] [].

(** The first page's write cannot open the file; the second page's can. *)
Definition locked_file_world : script :=
  mkScript [says (array_of "A"); says (array_of "B")] []
           [page "# A"; page "# B"] [] [OpenFailed OSError].

(** A result file whose [vendors] is a text, not a list. *)
Definition text_vendors_file : string :=
  "{" ++ q "vendors" ++ ":" ++ q "none yet" ++ "}".

(** A result file that is an object without a [vendors] key. *)
Definition other_keys_file : string :=
  "{" ++ q "sellers" ++ ":[" ++ named "Existing" ++ "]}".

(** Two pages that each bring one record. *)
Definition two_pages_world : script :=
  mkScript [says (array_of "A"); says (array_of "B")] []
           [page "# A"; page "# B"] [] [].

(** The user closes the console at the first question. *)
Definition closed_console_world : script :=
  mkScript [] [] [] [Raise (OtherError "EOFError")] [].


(** A result file whose [vendors] is the number 3. *)
Definition number_vendors_file : string := "{" ++ q "vendors" ++ ": 3}".

(** The mapping service fails. *)
Definition map_down_world : script :=
  mkScript [says "vendors"] [Raise RequestException] []
           [Ok site; Ok goal_text] [].

End Cases.

(** ** Reading the file as text

    [open(output_file, 'r')] opens the file in text mode, so [json.load(f)]
    decodes its bytes before it parses them.  The script needs [SIGALRM] and
    so runs on Unix, where the encoding is UTF-8: bytes that are not UTF-8
    raise [UnicodeDecodeError], a [ValueError] that is no
    [JSONDecodeError]. *)

Module TextFile.

Import Codec Scripted.

Definition UnicodeDecodeError : exn := OtherError "UnicodeDecodeError".

Definition between (lo hi : nat) (c : ascii) : bool :=
  let n := nat_of_ascii c in
  (lo <=? n)%nat && (n <=? hi)%nat.

(** The second byte of a sequence of three or four bytes, by its first. *)
Definition second_of_three (b c : ascii) : bool :=
  if between 224 224 b then between 160 191 c
  else if between 237 237 b then between 128 159 c
  else between 128 191 c.

Definition second_of_four (b c : ascii) : bool :=
  if between 240 240 b then between 144 191 c
  else if between 244 244 b then between 128 143 c
  else between 128 191 c.

(** Well-formed UTF-8: the byte sequences of the Unicode standard, without
    overlong forms and surrogates. *)
Fixpoint utf8 (bs : list ascii) : bool :=
  match bs with
  | [] => true
  | b :: r =>
      if between 0 127 b then utf8 r
      else
        match r with
        | [] => false
        | c1 :: r1 =>
            if between 194 223 b then between 128 191 c1 && utf8 r1
            else
              match r1 with
              | [] => false
              | c2 :: r2 =>
                  if between 224 239 b then
                    second_of_three b c1 && between 128 191 c2 && utf8 r2
                  else
                    match r2 with
                    | [] => false
                    | c3 :: r3 =>
                        between 240 244 b && second_of_four b c1 &&
                        between 128 191 c2 && between 128 191 c3 && utf8 r3
                    end
              end
        end
  end.

(** [json.load(f)] on the bytes of the file: decode, then parse with the
    reference decoder. *)
Definition load (content : string) : res json :=
  if utf8 (list_ascii_of_string content) then loads content
  else Raise UnicodeDecodeError.

(** A file of the two bytes FF FE. *)
Definition not_text : string :=
  String "255"%char (String "254"%char EmptyString).

Definition undecodable_before : state script :=
  start (mkScript [] [] [] [] []) (Some not_text).

Definition undecodable_run : res json * state script :=
  find_objective_in_top_pages load dumps fs_write [] Examples.goal_text
    app client undecodable_before.

End TextFile.

(** ** Proof steps *)

Ltac unfold_monad :=
  unfold try_except, try_finally, bind, ret, raise, lift, print, emit, call,
    get_all_vendors, set_all_vendors, path_exists, json_load, loads,
    json_dump, is_Exception in *.

Ltac break_match :=
  match goal with
  | |- context [match ?x with _ => _ end] =>
      lazymatch x with
      | context [match _ with _ => _ end] => fail
      | _ => destruct x eqn:?
      end
  end.

Ltac same_trace :=
  cbn; rewrite <- ?app_assoc; cbn; reflexivity.

Ltac cbn_main :=
  cbn -[find_relevant_page_via_map find_objective_in_top_pages].

Ltac clash :=
  repeat match goal with
  | H : (_, _) = (_, _) |- _ => inversion H; subst; clear H
  | H : Ok _ = Ok _ |- _ => inversion H; subst; clear H
  | H : Some _ = Some _ |- _ => inversion H; subst; clear H
  | H : ?x = Ok _, H' : ?x = Raise _ |- _ => congruence
  | H : ?x = Ok _, H' : ?x = Ok _ |- _ => rewrite H in H'
  | H : ?x = (_, _), H' : ?x = (_, _) |- _ => rewrite H in H'
  end.

Ltac shapes :=
  unfold reaches_save, has_key, extend_method, extend in *;
  repeat match goal with
  | H : context [match ?v with _ => _ end] |- _ =>
      lazymatch v with
      | context [match _ with _ => _ end] => fail
      | _ => destruct v eqn:?; cbn in *; try discriminate
      end
  | |- context [match ?v with _ => _ end] =>
      lazymatch v with
      | context [match _ with _ => _ end] => fail
      | _ => destruct v eqn:?; cbn in *; try discriminate
      end
  | H : is_list ?v = _ |- _ => is_var v; destruct v; cbn in *; try discriminate
  | H : py_len ?v = _ |- _ => is_var v; destruct v; cbn in *; try discriminate
  | H : Ok _ = Ok _ |- _ => inversion H; subst; clear H; cbn in *; try discriminate
  end;
  try congruence.

(** * Properties *)

(** ** Growth *)

Lemma grows_trans (a b c : json) : grows a b -> grows b c -> grows a c.
Proof.
  intros Hab Hbc. destruct Hab as [v | l items]; [exact Hbc |].
  inversion Hbc as [v Hv | l' items' Hl]; subst.
  - constructor.
  - rewrite <- app_assoc. constructor.
Qed.

Lemma grows_list (l : list json) (v : json) :
  grows (JArr l) v -> exists items, v = JArr (l ++ items).
Proof.
  intros H. inversion H; subst.
  - exists []. now rewrite app_nil_r.
  - eauto.
Qed.

Lemma append_chain_app (a b : json) (vs1 vs2 : list json) :
  append_chain a vs1 ->
  Forall (fun v => grows v b) vs1 ->
  grows a b ->
  append_chain b vs2 ->
  append_chain a (vs1 ++ vs2).
Proof.
  revert a. induction vs1 as [| v vs1 IH]; intros a Hc Hall Hab Hc2; cbn.
  - destruct vs2 as [| v2 vs2]; cbn in *; [exact I |].
    destruct Hc2 as [Hg Hc2]. split; [eapply grows_trans; eauto | exact Hc2].
  - destruct Hc as [Hg Hc]. inversion Hall; subst.
    split; [exact Hg | apply IH; auto].
Qed.

Lemma written_docs_app (t1 t2 : list event) :
  written_docs (t1 ++ t2) = (written_docs t1 ++ written_docs t2)%list.
Proof.
  induction t1 as [| e t1 IH]; cbn; [reflexivity |].
  destruct e as [| | | | | | doc r]; try exact IH.
  destruct r; cbn; now rewrite ?IH.
Qed.

Lemma save_calls_app (t1 t2 : list event) :
  save_calls (t1 ++ t2) = (save_calls t1 ++ save_calls t2)%list.
Proof.
  induction t1 as [| e t1 IH]; cbn; [reflexivity |].
  destruct e; cbn; now rewrite ?IH.
Qed.

Lemma scraped_app (t1 t2 : list event) :
  scraped (t1 ++ t2) = (scraped t1 ++ scraped t2)%list.
Proof.
  induction t1 as [| e t1 IH]; cbn; [reflexivity |].
  destruct e; cbn; now rewrite ?IH.
Qed.

Lemma printed_app (t1 t2 : list event) :
  printed (t1 ++ t2) = (printed t1 ++ printed t2)%list.
Proof.
  induction t1 as [| e t1 IH]; cbn; [reflexivity |].
  destruct e; cbn; now rewrite ?IH.
Qed.

Lemma disk_after_app (dumps : json -> string) (t1 t2 : list event) (d : option string) :
  disk_after dumps d (t1 ++ t2) = disk_after dumps (disk_after dumps d t1) t2.
Proof.
  revert d. induction t1 as [| e t1 IH]; intros d; cbn; [reflexivity |].
  destruct e as [| | | | | | doc r]; try apply IH.
  destruct r; apply IH.
Qed.


Lemma extend_grows (target arg v : json) :
  extend target arg = Ok v -> grows target v.
Proof.
  unfold extend. destruct target; try discriminate.
  destruct (iterate arg); [| discriminate].
  intros H. injection H as <-. constructor.
Qed.

Lemma extend_method_grows (target arg v : json) (method : json -> res json) :
  extend_method target = Ok method -> method arg = Ok v -> grows target v.
Proof.
  unfold extend_method. destruct target; try discriminate.
  intros H. injection H as <-. apply extend_grows.
Qed.

Lemma page_yield_same (v : json) : page_yield v v = [].
Proof.
  destruct v; cbn; auto. apply skipn_all.
Qed.

(** ** One page *)

Section Run.

Variable W : Type.
Variable json_loads : string -> res json.
Variable json_dumps : json -> string.
Variable fs_write : W -> write_result * W.
Variable app : FirecrawlApp W.
Variable client : OpenAI W.
Variable objective : string.

(** What one pass through the loop body does, whatever the services answer:
    it ends normally, scrapes its link once, only appends to [all_vendors],
    starts at most one save, of the document that holds [all_vendors], and
    touches the file only through that save. *)
Lemma process_link_summary (link : string) (s : state W) :
  exists new,
    fst (process_link json_loads json_dumps fs_write objective app client link s) = Ok tt /\
    trace (snd (process_link json_loads json_dumps fs_write objective app client link s)) = (trace s ++ new)%list /\
    scraped new = [link] /\
    grows (all_vendors s) (all_vendors (snd (process_link json_loads json_dumps fs_write objective app client link s))) /\
    disk (snd (process_link json_loads json_dumps fs_write objective app client link s)) = disk_after json_dumps (disk s) new /\
    (save_calls new = [] \/
     save_calls new = [vendors_doc (all_vendors (snd (process_link json_loads json_dumps fs_write objective app client link s)))]) /\
    (written_docs new = [] \/
     written_docs new = [vendors_doc (all_vendors (snd (process_link json_loads json_dumps fs_write objective app client link s)))]) /\
    ~ In (Print MsgStartFresh) new /\
    ~ In (Print MsgTimedOut) new.
Proof.
  unfold process_link, parse_and_save. unfold_monad. cbn.
  repeat (break_match; cbn in *; try discriminate).
  all: eexists; split; [reflexivity |]; split; [same_trace |]; cbn.
  all: repeat split; auto; try (intros H; intuition discriminate).
  all: try (constructor).
  all: eapply extend_method_grows; eassumption.
Qed.



(** The whole loop: it ends normally, scrapes the links in order, and the
    documents it writes form a chain that only grows. *)
Lemma for_each_summary (links : list string) (s : state W) :
  exists new vs,
    fst (for_each links (process_link json_loads json_dumps fs_write objective app client) s) = Ok tt /\
    trace (snd (for_each links (process_link json_loads json_dumps fs_write objective app client) s)) = (trace s ++ new)%list /\
    scraped new = links /\
    grows (all_vendors s) (all_vendors (snd (for_each links (process_link json_loads json_dumps fs_write objective app client) s))) /\
    disk (snd (for_each links (process_link json_loads json_dumps fs_write objective app client) s)) = disk_after json_dumps (disk s) new /\
    written_docs new = map vendors_doc vs /\
    append_chain (all_vendors s) vs /\
    Forall (fun v => grows v (all_vendors (snd (for_each links (process_link json_loads json_dumps fs_write objective app client) s)))) vs /\
    ~ In (Print MsgStartFresh) new /\
    ~ In (Print MsgTimedOut) new.
Proof.
  revert s. induction links as [| link links IH]; intros s.
  - exists [], []. cbn. rewrite app_nil_r.
    repeat split; auto; constructor.
  - destruct (process_link_summary link s)
      as (new1 & Hr & Ht & Hs & Hg & Hd & _ & Hw & Hf & Ho).
    cbn [for_each]. unfold bind.
    destruct (process_link json_loads json_dumps fs_write objective app client link s) as [r s1]. cbn in Hr, Ht, Hg, Hd, Hw. subst r.
    destruct (IH s1) as (new2 & vs2 & Hr2 & Ht2 & Hs2 & Hg2 & Hd2 & Hw2 & Hc2 & Ha2 & Hf2 & Ho2).
    assert (Hchain : exists vs1,
               written_docs new1 = map vendors_doc vs1 /\
               append_chain (all_vendors s) vs1 /\
               Forall (fun v => grows v (all_vendors s1)) vs1).
    { destruct Hw as [Hw | Hw].
      - exists []. repeat split; auto.
      - exists [all_vendors s1]. cbn. repeat split; auto.
        constructor; [constructor | constructor]. }
    destruct Hchain as (vs1 & Hw1 & Hc1 & Ha1).
    exists (new1 ++ new2)%list, (vs1 ++ vs2)%list.
    repeat split.
    + exact Hr2.
    + rewrite Ht2, Ht. now rewrite app_assoc.
    + rewrite scraped_app, Hs, Hs2. reflexivity.
    + eapply grows_trans; eauto.
    + rewrite Hd2, Hd. now rewrite disk_after_app.
    + rewrite written_docs_app, Hw1, Hw2. now rewrite map_app.
    + apply append_chain_app with (b := all_vendors s1); auto.
    + apply Forall_app. split; [| exact Ha2].
      eapply Forall_impl; [| exact Ha1].
      cbn. intros v Hv. eapply grows_trans; eauto.
    + intros Hin. apply in_app_or in Hin. tauto.
    + intros Hin. apply in_app_or in Hin. tauto.
Qed.

(** ** Loading *)

(** What lines 77-84 do: the file and the world are left as they are, the
    only thing printed is the start-fresh warning, and that exactly when the
    file is there and [json] rejects its text. *)
Lemma load_existing_summary (s : state W) :
  exists new,
    trace (snd (load_existing json_loads s)) = (trace s ++ new)%list /\
    disk (snd (load_existing json_loads s)) = disk s /\
    world (snd (load_existing json_loads s)) = world s /\
    save_calls new = [] /\
    scraped new = [] /\
    (new = [] \/ new = [Print MsgStartFresh]) /\
    (new = [Print MsgStartFresh] <->
     exists text, disk s = Some text /\ json_loads text = Raise JSONDecodeError).
Proof.
  unfold load_existing. unfold_monad. cbn.
  repeat (break_match; cbn in *; try discriminate).
  all: eexists; split; [first [same_trace | symmetry; apply app_nil_r] |]; cbn.
  all: repeat split; auto; try discriminate.
  all: try congruence.
  all: try (intros (text & Ht & Hl); congruence).
  all: try (intros (text & Ht & Hl); exfalso;
            match goal with
            | H : json_loads ?t = Raise ?e, F : is_JSONDecodeError ?e = false |- _ =>
                assert (text = t) by congruence; subst text;
                rewrite H in Hl; injection Hl as ->; discriminate F
            end).
  all: intros _; eexists; split; [reflexivity |].
  all: match goal with
       | H : dict_get ?a _ _ = Raise ?e, F : is_JSONDecodeError ?e = true |- _ =>
           destruct a; cbn in H; try destruct (lookup _ _);
           inversion H; subst; discriminate F
       | H : json_loads ?t = Raise ?e, F : is_JSONDecodeError ?e = true |- _ =>
           destruct e; cbn in F; congruence
       end.
Qed.

(** ** The result file only grows *)


(** ** From the response to records *)

(** C2.  For a page whose fetch and model call returned the response [text],
    with [all_vendors] a list [l] before the page: the page never raises;
    when [text] parses as an array, its elements are appended in order; when
    it parses as an object with a [vendors] key, the items of that key's
    value are appended in order (the elements of the array it holds; nothing
    when the value cannot be iterated); for every other parsed value, and
    when parsing raises, nothing is appended. *)
Theorem response_to_records (link : string) (s : state W) (l : list json)
    (scrape_result markdown : json) (text : string) (w1 w2 : W) :
  all_vendors s = JArr l ->
  scrape_url app link (world s) = (Ok scrape_result, w1) ->
  getitem scrape_result "markdown" = Ok markdown ->
  chat_completions_create client "gpt-3.5-turbo"
    (check_prompt objective markdown) w1 = (Ok (Some text), w2) ->
  let r := process_link json_loads json_dumps fs_write objective app client link s in
  fst r = Ok tt /\
  (forall a, json_loads text = Ok (JArr a) ->
     all_vendors (snd r) = JArr (l ++ a)) /\
  (forall o a, json_loads text = Ok (JObj o) ->
     lookup "vendors" o = Some (JArr a) ->
     all_vendors (snd r) = JArr (l ++ a)) /\
  (forall o x, json_loads text = Ok (JObj o) ->
     lookup "vendors" o = Some x ->
     all_vendors (snd r) =
       JArr (l ++ match iterate x with Ok items => items | Raise _ => [] end)) /\
  (forall v, json_loads text = Ok v ->
     is_list v = false ->
     (forall o, v = JObj o -> lookup "vendors" o = None) ->
     all_vendors (snd r) = JArr l) /\
  (forall e, json_loads text = Raise e -> all_vendors (snd r) = JArr l).
Proof.
  intros Hl Hscrape Hmd Hchat.
  assert (Hobj : forall o x, json_loads text = Ok (JObj o) ->
     lookup "vendors" o = Some x ->
     all_vendors (snd (process_link json_loads json_dumps fs_write objective
                         app client link s)) =
       JArr (l ++ match iterate x with Ok items => items | Raise _ => [] end)).
  { intros o x Hp Hk.
    unfold process_link, parse_and_save. unfold_monad. cbn.
    rewrite Hscrape. cbn. rewrite Hmd. cbn. rewrite Hchat. cbn.
    rewrite Hp. cbn. unfold has_key. rewrite Hk, Hl. cbn.
    destruct (iterate x) eqn:Hi; cbn.
    - destruct (fs_write w2) as [[| e | e partial] w3]; cbn;
      try destruct (is_JSONDecodeError e); reflexivity.
    - assert (e = TypeError) as ->
        by (destruct x; cbn in Hi; congruence).
      cbn. now rewrite app_nil_r. }
  cbn zeta. repeat split.
  - destruct (process_link_summary link s) as (new & Hr & _). exact Hr.
  - intros a Hp.
    unfold process_link, parse_and_save. unfold_monad. cbn.
    rewrite Hscrape. cbn. rewrite Hmd. cbn. rewrite Hchat. cbn.
    rewrite Hp. cbn. rewrite Hl. cbn.
    destruct (fs_write w2) as [[| e | e partial] w3]; cbn;
      try destruct (is_JSONDecodeError e); reflexivity.
  - intros o a Hp Hk. rewrite (Hobj o (JArr a) Hp Hk). reflexivity.
  - exact Hobj.
  - intros v Hp Hnl Hnv.
    unfold process_link, parse_and_save. unfold_monad. cbn.
    rewrite Hscrape. cbn. rewrite Hmd. cbn. rewrite Hchat. cbn.
    rewrite Hp. cbn. rewrite Hnl.
    destruct v; cbn; try exact Hl; try discriminate.
    + destruct (fs_write w2) as [[| e | e partial] w3]; cbn;
        try destruct (is_JSONDecodeError e); exact Hl.
    + unfold has_key. rewrite (Hnv o eq_refl). cbn.
      destruct (fs_write w2) as [[| e | e partial] w3]; cbn;
        try destruct (is_JSONDecodeError e); exact Hl.
  - intros e Hp.
    unfold process_link, parse_and_save. unfold_monad. cbn.
    rewrite Hscrape. cbn. rewrite Hmd. cbn. rewrite Hchat. cbn.
    rewrite Hp. cbn. destruct (is_JSONDecodeError e); exact Hl.
Qed.

(** ** When a page saves *)

(** C3, as the code has it.  A page starts a save exactly when its fetch and
    its model call return, the response parses, and the parsed value gets
    through [extend] and [len] -- whether or not it added a record.  A page
    that added a record always saves; a save hands [json.dump] the document
    that holds [all_vendors] as it is then, so a page that added nothing
    writes the list it found; a page that does not save leaves the file and
    [all_vendors] as they were. *)
Theorem save_iff_parsed (link : string) (s : state W) :
  let r := process_link json_loads json_dumps fs_write objective app client link s in
  exists new,
    trace (snd r) = (trace s ++ new)%list /\
    (save_calls new <> [] <->
     exists scrape_result markdown text v w1 w2,
       scrape_url app link (world s) = (Ok scrape_result, w1) /\
       getitem scrape_result "markdown" = Ok markdown /\
       chat_completions_create client "gpt-3.5-turbo"
         (check_prompt objective markdown) w1 = (Ok (Some text), w2) /\
       json_loads text = Ok v /\
       reaches_save (all_vendors s) v = true) /\
    (page_yield (all_vendors s) (all_vendors (snd r)) <> [] -> save_calls new <> []) /\
    (save_calls new <> [] ->
       save_calls new = [vendors_doc (all_vendors (snd r))]) /\
    (save_calls new = [] ->
       disk (snd r) = disk s /\ all_vendors (snd r) = all_vendors s).
Proof.
  cbn zeta. unfold process_link, parse_and_save. unfold_monad. cbn.
  repeat (break_match; cbn in *; try discriminate).
  all: eexists; split; [same_trace |]; cbn.
  all: rewrite ?page_yield_same.
  all: split; [split; [intros Hs | intros (xs & xm & xt & xv & xw1 & xw2 & H1 & H2 & H3 & H4 & H5)] |].
  all: try congruence.
  all: try (split; [congruence | split; [congruence | intros; split; reflexivity]]).
  all: try (split; [intros _; discriminate | split; [reflexivity | congruence]]).
  all: try (do 6 eexists; split; [reflexivity |]; split; [eassumption |];
            split; [eassumption |]; split; [eassumption |]; shapes).
  all: try (exfalso; clash; shapes).
Qed.

(** ** Ranking *)

(** C8.  [find_relevant_page_via_map] always returns to its caller with a
    value, never with an exception; when the model call raises, or the
    mapping call raises after it, the value is [None] and the last thing
    done is printing the error. *)
Theorem ranking_failure_returns_none (url : string) (s : state W) :
  let r := find_relevant_page_via_map objective url app client s in
  (exists v, fst r = Ok v) /\
  (forall e w,
     chat_completions_create client "gpt-3.5-turbo" (map_prompt objective) (world s)
       = (Raise e, w) ->
     fst r = Ok None /\
     exists before, trace (snd r) = (before ++ [Print (MsgMapError e)])%list) /\
  (forall content w e w',
     chat_completions_create client "gpt-3.5-turbo" (map_prompt objective) (world s)
       = (Ok content, w) ->
     map_url app url content w = (Raise e, w') ->
     fst r = Ok None /\
     exists before, trace (snd r) = (before ++ [Print (MsgMapError e)])%list).
Proof.
  cbn zeta. unfold find_relevant_page_via_map. unfold_monad. cbn.
  split; [| split].
  - repeat (break_match; cbn in *; try discriminate); eauto.
  - intros e w Hchat. rewrite Hchat. cbn.
    split; [reflexivity | eexists; reflexivity].
  - intros content w e w' Hchat Hmap. rewrite Hchat. cbn. rewrite Hmap. cbn.
    split; [reflexivity | eexists; reflexivity].
Qed.

(** C7, as the code has it.  The search parameter handed to [map_url] is the
    content of the model's response as it came, and when the mapping call
    returns, its list of links is returned as it is. *)
Theorem search_parameter_is_raw (url : string) (s : state W)
    (content : option string) (w1 : W) :
  chat_completions_create client "gpt-3.5-turbo" (map_prompt objective) (world s)
    = (Ok content, w1) ->
  let r := find_relevant_page_via_map objective url app client s in
  (exists new,
     trace (snd r) = (trace s ++ new)%list /\ searches new = [content]) /\
  (forall links w2,
     map_url app url content w1 = (Ok links, w2) ->
     fst r = Ok (Some links) /\ world (snd r) = w2).
Proof.
  intros Hchat. cbn zeta. unfold find_relevant_page_via_map. unfold_monad. cbn.
  rewrite Hchat. cbn. split.
  - destruct (map_url app url content w1) as [[links | e] w2]; cbn;
      eexists; (split; [same_trace | reflexivity]).
  - intros links w2 Hmap. rewrite Hmap. cbn. split; reflexivity.
Qed.

(** ** Loading the result file *)

(** C6, as the code has it.  Reading the result file, as the first lines
    of [find_objective_in_top_pages] do (the function run on no links does
    nothing else): when the file is absent, the result is the empty list and
    nothing is printed; when it is there and reading it raises
    [JSONDecodeError], the warning is printed, the result is the empty list,
    and the text stays in the file; when reading it raises anything else,
    the exception is passed on to the caller, for every list of links, with
    nothing printed and the file as it was. *)
Theorem load_absent_or_corrupt (s : state W) :
  (disk s = None ->
   find_objective_in_top_pages json_loads json_dumps fs_write [] objective app client s
     = (Ok (JArr []), mkState (world s) None (trace s) (JArr []))) /\
  (forall text,
     disk s = Some text ->
     json_loads text = Raise JSONDecodeError ->
     find_objective_in_top_pages json_loads json_dumps fs_write [] objective app client s
       = (Ok (JArr []),
          mkState (world s) (Some text) (trace s ++ [Print MsgStartFresh]) (JArr []))) /\
  (forall text e links,
     disk s = Some text ->
     json_loads text = Raise e ->
     is_JSONDecodeError e = false ->
     find_objective_in_top_pages json_loads json_dumps fs_write links objective app client s
       = (Raise e, mkState (world s) (Some text) (trace s) (JArr []))).
Proof.
  unfold find_objective_in_top_pages, load_existing. unfold_monad.
  split; [| split].
  - intros Hd. cbn. rewrite Hd. reflexivity.
  - intros text Hd Hl. cbn. rewrite Hd. cbn. rewrite Hl. reflexivity.
  - intros text e links Hd Hl He. cbn. rewrite Hd. cbn. rewrite Hl. cbn.
    rewrite He. reflexivity.
Qed.

(** The start-fresh warning is printed by a run over any links exactly when
    the file is there and [json] rejects its text. *)
Lemma start_fresh_iff_decode_error (links : list string) (s : state W) :
  exists new,
    trace (snd (find_objective_in_top_pages json_loads json_dumps fs_write
                  links objective app client s)) = (trace s ++ new)%list /\
    (In (Print MsgStartFresh) new <->
     exists text, disk s = Some text /\ json_loads text = Raise JSONDecodeError).
Proof.
  unfold find_objective_in_top_pages.
  unfold bind, set_all_vendors, get_all_vendors.
  set (s0 := mkState (world s) (disk s) (trace s) (JArr [])).
  destruct (load_existing_summary s0) as (newL & Ht & _ & _ & _ & _ & Hcase & Hiff).
  cbn [disk s0] in Hiff.
  destruct (load_existing json_loads s0) as [[[] | e] s1]; cbn [fst snd] in *.
  - destruct (for_each_summary links s1)
      as (new & vs & _ & Ht2 & _ & _ & _ & _ & _ & _ & Hf & _).
    destruct (for_each links _ s1) as [r s2]. cbn [fst snd] in *.
    exists (newL ++ new)%list.
    assert (Hts : trace (snd (let (r0, s') := (r, s2) in
                match r0 with Ok _ => (Ok (all_vendors s'), s') | Raise e => (Raise e, s') end))
                  = trace s2) by (destruct r; reflexivity).
    rewrite Hts, Ht2, Ht. cbn. split; [now rewrite app_assoc |].
    rewrite <- Hiff. split.
    + intros Hin. apply in_app_or in Hin as [Hin | Hin]; [| tauto].
      destruct Hcase as [-> | ->]; [destruct Hin | reflexivity].
    + intros ->. cbn. auto.
  - exists newL. split; [exact Ht |].
    rewrite <- Hiff. split.
    + intros Hin. destruct Hcase as [-> | ->]; [destruct Hin | reflexivity].
    + intros ->. cbn. auto.
Qed.

(** ** Failures of one page *)

(** What a page does when everything succeeds: fetch, model call, an array
    as response, and the write. *)
Lemma page_success_exact (link : string) (s : state W) (l a : list json)
    (scrape_result markdown : json) (text : string) (w1 w2 w3 : W) :
  all_vendors s = JArr l ->
  scrape_url app link (world s) = (Ok scrape_result, w1) ->
  getitem scrape_result "markdown" = Ok markdown ->
  chat_completions_create client "gpt-3.5-turbo"
    (check_prompt objective markdown) w1 = (Ok (Some text), w2) ->
  json_loads text = Ok (JArr a) ->
  fs_write w2 = (Written, w3) ->
  process_link json_loads json_dumps fs_write objective app client link s
    = (Ok tt,
       mkState w3 (Some (json_dumps (vendors_doc (JArr (l ++ a)))))
         (trace s ++
          [Print (MsgScrape link); ScrapeUrl link; Print MsgScrapeDone;
           ChatCreate "gpt-3.5-turbo" (check_prompt objective markdown);
           Print (MsgExtracted (List.length a));
           Save (vendors_doc (JArr (l ++ a))) Written; Print MsgSaved])
         (JArr (l ++ a))).
Proof.
  intros Hl Hscrape Hmd Hchat Hparse Hw.
  unfold process_link, parse_and_save. unfold_monad. cbn.
  rewrite Hscrape. cbn. rewrite Hmd. cbn. rewrite Hchat. cbn.
  rewrite Hparse. cbn. rewrite Hl. cbn. rewrite Hw. cbn.
  rewrite <- !app_assoc. reflexivity.
Qed.

(** What a page does when its fetch raises. *)
Lemma page_fetch_failure_exact (link : string) (s : state W) (e : exn) (w : W) :
  scrape_url app link (world s) = (Raise e, w) ->
  process_link json_loads json_dumps fs_write objective app client link s
    = (Ok tt,
       mkState w (disk s)
         (trace s ++ [Print (MsgScrape link); ScrapeUrl link;
                      Print (MsgPageError link e)])
         (all_vendors s)).
Proof.
  intros Hscrape. unfold process_link. unfold_monad. cbn.
  rewrite Hscrape. cbn. rewrite <- !app_assoc. reflexivity.
Qed.

(** The loop over three links is the three pages one after the other. *)
Lemma for_each_three (p1 p2 p3 : string) (s0 : state W) :
  for_each [p1; p2; p3]
    (process_link json_loads json_dumps fs_write objective app client) s0
  = process_link json_loads json_dumps fs_write objective app client p3
      (snd (process_link json_loads json_dumps fs_write objective app client p2
              (snd (process_link json_loads json_dumps fs_write objective app
                      client p1 s0)))).
Proof.
  cbn [for_each]. unfold bind, ret.
  destruct (process_link_summary p1 s0) as (n1 & Hr1 & _).
  destruct (process_link _ _ _ _ _ _ p1 s0) as [r1 s1]. cbn in Hr1. subst r1.
  destruct (process_link_summary p2 s1) as (n2 & Hr2 & _).
  cbn [snd].
  destruct (process_link _ _ _ _ _ _ p2 s1) as [r2 s2]. cbn in Hr2. subst r2.
  cbn [snd].
  destruct (process_link_summary p3 s2) as (n3 & Hr3 & _).
  destruct (process_link _ _ _ _ _ _ p3 s2) as [r3 s3]. cbn in Hr3. subst r3.
  reflexivity.
Qed.

(** C5.  The loop over the links always runs to its end and scrapes every
    link, in order, whatever the services do.  A page whose fetch raises,
    whose model call raises, or whose response [json] rejects, ends normally
    with the error printed, and leaves [all_vendors] and the file as they
    were.  A page whose fetch, model call and write succeed and whose
    response is an array appends the array to [all_vendors] and writes the
    whole list to the file.  So in a run over three links in which the first
    and the third page succeed and the fetch of the second fails, the run
    ends normally with the records of the first page followed by those of
    the third, both in [all_vendors] and in the file, and in between only
    the error of the second page is printed. *)
Theorem page_failure_is_contained (links : list string) (s : state W) :
  let page := process_link json_loads json_dumps fs_write objective app client in
  fst (for_each links page s) = Ok tt /\
  (exists new,
     trace (snd (for_each links page s)) = (trace s ++ new)%list /\
     scraped new = links) /\
  (forall link s1 e w,
     scrape_url app link (world s1) = (Raise e, w) ->
     fst (page link s1) = Ok tt /\
     all_vendors (snd (page link s1)) = all_vendors s1 /\
     disk (snd (page link s1)) = disk s1 /\
     exists before,
       trace (snd (page link s1)) = (before ++ [Print (MsgPageError link e)])%list) /\
  (forall link s1 scrape_result markdown w1 e w2,
     scrape_url app link (world s1) = (Ok scrape_result, w1) ->
     getitem scrape_result "markdown" = Ok markdown ->
     chat_completions_create client "gpt-3.5-turbo"
       (check_prompt objective markdown) w1 = (Raise e, w2) ->
     fst (page link s1) = Ok tt /\
     all_vendors (snd (page link s1)) = all_vendors s1 /\
     disk (snd (page link s1)) = disk s1 /\
     exists before,
       trace (snd (page link s1)) = (before ++ [Print (MsgPageError link e)])%list) /\
  (forall link s1 scrape_result markdown w1 text w2,
     scrape_url app link (world s1) = (Ok scrape_result, w1) ->
     getitem scrape_result "markdown" = Ok markdown ->
     chat_completions_create client "gpt-3.5-turbo"
       (check_prompt objective markdown) w1 = (Ok (Some text), w2) ->
     json_loads text = Raise JSONDecodeError ->
     fst (page link s1) = Ok tt /\
     all_vendors (snd (page link s1)) = all_vendors s1 /\
     disk (snd (page link s1)) = disk s1 /\
     exists before,
       trace (snd (page link s1)) = (before ++ [Print MsgParseError])%list) /\
  (forall p1 p2 p3 s0,
     for_each [p1; p2; p3] page s0
       = page p3 (snd (page p2 (snd (page p1 s0))))) /\
  (forall link s1 l a scrape_result markdown text w1 w2 w3,
     all_vendors s1 = JArr l ->
     scrape_url app link (world s1) = (Ok scrape_result, w1) ->
     getitem scrape_result "markdown" = Ok markdown ->
     chat_completions_create client "gpt-3.5-turbo"
       (check_prompt objective markdown) w1 = (Ok (Some text), w2) ->
     json_loads text = Ok (JArr a) ->
     fs_write w2 = (Written, w3) ->
     fst (page link s1) = Ok tt /\
     all_vendors (snd (page link s1)) = JArr (l ++ a) /\
     disk (snd (page link s1)) = Some (json_dumps (vendors_doc (JArr (l ++ a)))) /\
     written_docs (trace (snd (page link s1)))
       = (written_docs (trace s1) ++ [vendors_doc (JArr (l ++ a))])%list) /\
  (forall p1 p2 p3 s0 l a1 a3 result1 markdown1 text1 result3 markdown3 text3 e
          w1 w2 w3 w4 w5 w6 w7,
     all_vendors s0 = JArr l ->
     scrape_url app p1 (world s0) = (Ok result1, w1) ->
     getitem result1 "markdown" = Ok markdown1 ->
     chat_completions_create client "gpt-3.5-turbo"
       (check_prompt objective markdown1) w1 = (Ok (Some text1), w2) ->
     json_loads text1 = Ok (JArr a1) ->
     fs_write w2 = (Written, w3) ->
     scrape_url app p2 w3 = (Raise e, w4) ->
     scrape_url app p3 w4 = (Ok result3, w5) ->
     getitem result3 "markdown" = Ok markdown3 ->
     chat_completions_create client "gpt-3.5-turbo"
       (check_prompt objective markdown3) w5 = (Ok (Some text3), w6) ->
     json_loads text3 = Ok (JArr a3) ->
     fs_write w6 = (Written, w7) ->
     for_each [p1; p2; p3] page s0
       = (Ok tt,
          mkState w7 (Some (json_dumps (vendors_doc (JArr (l ++ a1 ++ a3)))))
            (trace s0 ++
             [Print (MsgScrape p1); ScrapeUrl p1; Print MsgScrapeDone;
              ChatCreate "gpt-3.5-turbo" (check_prompt objective markdown1);
              Print (MsgExtracted (List.length a1));
              Save (vendors_doc (JArr (l ++ a1))) Written; Print MsgSaved;
              Print (MsgScrape p2); ScrapeUrl p2; Print (MsgPageError p2 e);
              Print (MsgScrape p3); ScrapeUrl p3; Print MsgScrapeDone;
              ChatCreate "gpt-3.5-turbo" (check_prompt objective markdown3);
              Print (MsgExtracted (List.length a3));
              Save (vendors_doc (JArr (l ++ a1 ++ a3))) Written; Print MsgSaved])
            (JArr (l ++ a1 ++ a3)))).
Proof.
  cbn zeta.
  split; [| split; [| split; [| split; [| split; [| split; [| split]]]]]].
  - destruct (for_each_summary links s) as (new & vs & Hr & _). exact Hr.
  - destruct (for_each_summary links s) as (new & vs & _ & Ht & Hs & _). eauto.
  - intros link s1 e w Hscrape.
    rewrite (page_fetch_failure_exact link s1 e w Hscrape). cbn.
    repeat split.
    exists (trace s1 ++ [Print (MsgScrape link); ScrapeUrl link])%list.
    rewrite <- app_assoc. reflexivity.
  - intros link s1 scrape_result markdown w1 e w2 Hscrape Hmd Hchat.
    unfold process_link. unfold_monad. cbn.
    rewrite Hscrape. cbn. rewrite Hmd. cbn. rewrite Hchat. cbn.
    repeat split. eexists. reflexivity.
  - intros link s1 scrape_result markdown w1 text w2 Hscrape Hmd Hchat Hl.
    unfold process_link, parse_and_save. unfold_monad. cbn.
    rewrite Hscrape. cbn. rewrite Hmd. cbn. rewrite Hchat. cbn. rewrite Hl. cbn.
    repeat split. eexists. reflexivity.
  - intros p1 p2 p3 s0. apply for_each_three.
  - intros link s1 l a scrape_result markdown text w1 w2 w3 Hl Hscrape Hmd Hchat Hparse Hw.
    rewrite (page_success_exact link s1 l a scrape_result markdown text w1 w2 w3
               Hl Hscrape Hmd Hchat Hparse Hw).
    cbn [fst snd all_vendors disk trace].
    repeat split. rewrite written_docs_app. reflexivity.
  - intros p1 p2 p3 s0 l a1 a3 result1 markdown1 text1 result3 markdown3 text3 e
      w1 w2 w3 w4 w5 w6 w7 Hl Hs1 Hm1 Hc1 Hp1 Hw1 Hs2 Hs3 Hm3 Hc3 Hp3 Hw3.
    rewrite for_each_three.
    rewrite (page_success_exact p1 s0 l a1 result1 markdown1 text1 w1 w2 w3
               Hl Hs1 Hm1 Hc1 Hp1 Hw1).
    cbn [snd].
    match goal with
    | |- context [process_link _ _ _ _ _ _ p2 ?st] =>
        rewrite (page_fetch_failure_exact p2 st e w4 Hs2)
    end.
    cbn [snd disk trace all_vendors].
    match goal with
    | |- context [process_link _ _ _ _ _ _ p3 ?st] =>
        rewrite (page_success_exact p3 st (l ++ a1) a3 result3 markdown3 text3
                   w5 w6 w7 eq_refl Hs3 Hm3 Hc3 Hp3 Hw3)
    end.
    cbn [trace]. rewrite <- !app_assoc. reflexivity.
Qed.

(** ** The whole run *)

(** [input(question)], for [main]. *)
Variable input : string -> W -> res string * W.

(** C4.  When the mapping call returns the empty list, ranking returns
    that empty list -- a value different from the [None] it returns when a
    call raises -- and [main] prints that no pages were found, cancels the
    alarm and returns: no page is scraped, no extraction prompt is sent,
    nothing is saved, and the file and [all_vendors] are as before. *)
Theorem empty_ranking_stops (s : state W) (url : string)
    (content : option string) (w1 w2 w3 w4 : W) :
  input "Enter the website to crawl: " (world s) = (Ok url, w1) ->
  input "Enter your objective: " w1 = (Ok objective, w2) ->
  chat_completions_create client "gpt-3.5-turbo" (map_prompt objective) w2
    = (Ok content, w3) ->
  map_url app url content w3 = (Ok [], w4) ->
  let ready :=
    mkState w2 (disk s)
      (trace s ++ [Alarm 1800; Input "Enter the website to crawl: ";
                   Input "Enter your objective: "; Print MsgInitiating])
      (all_vendors s) in
  let new :=
    [Alarm 1800; Input "Enter the website to crawl: ";
     Input "Enter your objective: "; Print MsgInitiating;
     Print (MsgObjective objective); Print (MsgSearchSite url);
     Print MsgAnalyzing; ChatCreate "gpt-3.5-turbo" (map_prompt objective);
     Print (MsgSearchParameter content); Print MsgMapping;
     MapUrl url content; Print MsgMapDone; Print (MsgLocated 0);
     Print MsgNoPages; Alarm 0] in
  fst (find_relevant_page_via_map objective url app client ready) = Ok (Some []) /\
  Ok (Some (@nil string)) <> Ok None /\
  (forall (s' : state W) e w,
     chat_completions_create client "gpt-3.5-turbo" (map_prompt objective) (world s')
       = (Raise e, w) ->
     fst (find_relevant_page_via_map objective url app client s') = Ok None) /\
  main json_loads json_dumps input fs_write app client s
    = (Ok tt, mkState w4 (disk s) (trace s ++ new) (all_vendors s)) /\
  filter is_extractor_call new = [] /\
  save_calls new = [].
Proof.
  intros Hurl Hobj Hchat Hmap. cbn zeta.
  split; [| split; [| split; [| split; [| split]]]].
  - unfold find_relevant_page_via_map. unfold_monad. cbn.
    rewrite Hchat. cbn. rewrite Hmap. reflexivity.
  - discriminate.
  - intros s' e w Hfail.
    unfold find_relevant_page_via_map. unfold_monad. cbn.
    rewrite Hfail. reflexivity.
  - unfold main, find_relevant_page_via_map. unfold_monad. cbn.
    rewrite Hurl. cbn. rewrite Hobj. cbn. rewrite Hchat. cbn.
    rewrite Hmap. cbn. rewrite <- !app_assoc. reflexivity.
  - reflexivity.
  - reflexivity.
Qed.

(** C10.  When the result file holds valid JSON that is not an object,
    [find_objective_in_top_pages] raises [AttributeError] before any page is
    processed, whatever the links; [main], which catches only
    [TimeoutError], cancels the alarm and passes the exception on, with the
    file untouched.  The start-fresh warning is printed exactly when the
    file is there and [json] rejects its text. *)
Theorem load_non_object_aborts (s : state W) (links : list string)
    (text : string) (v : json) :
  disk s = Some text ->
  json_loads text = Ok v ->
  is_dict v = false ->
  find_objective_in_top_pages json_loads json_dumps fs_write links objective app client s
    = (Raise AttributeError, mkState (world s) (Some text) (trace s) (JArr [])) /\
  (forall url content link w1 w2 w3 w4,
     input "Enter the website to crawl: " (world s) = (Ok url, w1) ->
     input "Enter your objective: " w1 = (Ok objective, w2) ->
     chat_completions_create client "gpt-3.5-turbo" (map_prompt objective) w2
       = (Ok content, w3) ->
     map_url app url content w3 = (Ok (link :: links), w4) ->
     main json_loads json_dumps input fs_write app client s
       = (Raise AttributeError,
          mkState w4 (Some text)
            (trace s ++
             [Alarm 1800; Input "Enter the website to crawl: ";
              Input "Enter your objective: "; Print MsgInitiating;
              Print (MsgObjective objective); Print (MsgSearchSite url);
              Print MsgAnalyzing; ChatCreate "gpt-3.5-turbo" (map_prompt objective);
              Print (MsgSearchParameter content); Print MsgMapping;
              MapUrl url content; Print MsgMapDone;
              Print (MsgLocated (S (List.length links)));
              Print MsgRelevantPages; Alarm 0])
            (JArr []))) /\
  (forall (s' : state W) (links' : list string),
     exists new,
       trace (snd (find_objective_in_top_pages json_loads json_dumps fs_write
                     links' objective app client s')) = (trace s' ++ new)%list /\
       (In (Print MsgStartFresh) new <->
        exists text', disk s' = Some text' /\
                      json_loads text' = Raise JSONDecodeError)).
Proof.
  intros Hd Hl Hv.
  assert (Hget : dict_get v "vendors" (JArr []) = Raise AttributeError)
    by (destruct v; cbn in *; congruence).
  split; [| split].
  - unfold find_objective_in_top_pages, load_existing. unfold_monad. cbn.
    rewrite Hd. cbn. rewrite Hl. cbn. rewrite Hget. reflexivity.
  - intros url content link w1 w2 w3 w4 Hurl Hobj Hchat Hmap.
    unfold main, find_relevant_page_via_map, find_objective_in_top_pages,
      load_existing. unfold_monad. cbn.
    rewrite Hurl. cbn. rewrite Hobj. cbn. rewrite Hchat. cbn.
    rewrite Hmap. cbn. rewrite Hd. cbn. rewrite Hl. cbn. rewrite Hget. cbn.
    rewrite <- !app_assoc. reflexivity.
  - intros s' links'. apply start_fresh_iff_decode_error.
Qed.

End Run.

(** * Further properties of the code *)

Lemma model_calls_app (t1 t2 : list event) :
  model_calls (t1 ++ t2) = (model_calls t1 ++ model_calls t2)%list.
Proof.
  induction t1 as [| e t1 IH]; cbn; [reflexivity |].
  destruct e; cbn; now rewrite ?IH.
Qed.

Lemma alarms_app (t1 t2 : list event) :
  alarms (t1 ++ t2) = (alarms t1 ++ alarms t2)%list.
Proof.
  induction t1 as [| e t1 IH]; cbn; [reflexivity |].
  destruct e; cbn; now rewrite ?IH.
Qed.

Lemma questions_app (t1 t2 : list event) :
  questions (t1 ++ t2) = (questions t1 ++ questions t2)%list.
Proof.
  induction t1 as [| e t1 IH]; cbn; [reflexivity |].
  destruct e; cbn; now rewrite ?IH.
Qed.

Lemma searches_app (t1 t2 : list event) :
  searches (t1 ++ t2) = (searches t1 ++ searches t2)%list.
Proof.
  induction t1 as [| e t1 IH]; cbn; [reflexivity |].
  destruct e; cbn; now rewrite ?IH.
Qed.

Lemma grows_from_non_list (v v' : json) :
  is_list v = false -> grows v v' -> v' = v.
Proof.
  intros Hv Hg. destruct Hg; [reflexivity | discriminate].
Qed.

Section More.

Variable W : Type.
Variable json_loads : string -> res json.
Variable json_dumps : json -> string.
Variable fs_write : W -> write_result * W.
Variable app : FirecrawlApp W.
Variable client : OpenAI W.
Variable objective : string.

(** ** Ranking leaves everything else alone *)

(** What the ranking does that [main] relies on. *)
Lemma ranking_summary (url : string) (s : state W) :
  exists v new,
    fst (find_relevant_page_via_map objective url app client s) = Ok v /\
    trace (snd (find_relevant_page_via_map objective url app client s))
      = (trace s ++ new)%list /\
    disk (snd (find_relevant_page_via_map objective url app client s)) = disk s /\
    all_vendors (snd (find_relevant_page_via_map objective url app client s))
      = all_vendors s /\
    scraped new = [] /\ save_calls new = [] /\ alarms new = [] /\
    questions new = [] /\ printed new <> [] /\
    ~ In (Print MsgTimedOut) new.
Proof.
  unfold find_relevant_page_via_map, try_except, bind, ret, print, emit, call,
    is_Exception.
  cbn.
  destruct (chat_completions_create client "gpt-3.5-turbo" (map_prompt objective)
              (world s)) as [[content | e] w1]; cbn.
  1: destruct (map_url app url content w1) as [[links | e] w2]; cbn.
  all: do 2 eexists; split; [reflexivity |]; split; [same_trace |]; cbn.
  all: repeat split; try discriminate.
  all: intros H; repeat (destruct H as [H | H]; [discriminate H |]); exact H.
Qed.

(** X1.  Ranking never reads or writes the result file and never touches
    [all_vendors]: it scrapes nothing and saves nothing.  It asks the model
    once, with the search prompt for the objective, and calls the mapping
    service at most once -- not at all exactly when the model call raised. *)
Theorem ranking_touches_nothing (url : string) (s : state W) :
  let r := find_relevant_page_via_map objective url app client s in
  exists new,
    trace (snd r) = (trace s ++ new)%list /\
    disk (snd r) = disk s /\
    all_vendors (snd r) = all_vendors s /\
    scraped new = [] /\
    save_calls new = [] /\
    model_calls new = [map_prompt objective] /\
    (List.length (searches new) <= 1)%nat /\
    (searches new = [] <->
     exists e w,
       chat_completions_create client "gpt-3.5-turbo" (map_prompt objective) (world s)
         = (Raise e, w)).
Proof.
  cbn zeta. unfold find_relevant_page_via_map. unfold_monad. cbn.
  destruct (chat_completions_create client "gpt-3.5-turbo" (map_prompt objective)
              (world s)) as [[content | e] w1] eqn:Hchat; cbn.
  - destruct (map_url app url content w1) as [[links | e] w2]; cbn.
    all: eexists; split; [same_trace |]; cbn.
    all: repeat split; auto; try discriminate.
    all: intros (e' & w' & H); discriminate H.
  - eexists; split; [same_trace |]; cbn.
    repeat split; auto. eauto.
Qed.

(** ** Edges of one page *)

(** X3.  A scraped page without a [markdown] key: building the prompt
    raises [KeyError] (or [TypeError] when the result is not a dict); the
    page handler prints it, the model is not asked, and nothing else
    changes. *)
Theorem missing_markdown_skips_model (link : string) (s : state W)
    (scrape_result : json) (e : exn) (w1 : W) :
  scrape_url app link (world s) = (Ok scrape_result, w1) ->
  getitem scrape_result "markdown" = Raise e ->
  process_link json_loads json_dumps fs_write objective app client link s
    = (Ok tt,
       mkState w1 (disk s)
         (trace s ++ [Print (MsgScrape link); ScrapeUrl link; Print MsgScrapeDone;
                      Print (MsgPageError link e)])
         (all_vendors s)) /\
  (e = KeyError \/ e = TypeError) /\
  (e = KeyError <-> exists o, scrape_result = JObj o /\ lookup "markdown" o = None).
Proof.
  intros Hscrape Hmd. split; [| split].
  - unfold process_link. unfold_monad. cbn.
    rewrite Hscrape. cbn. rewrite Hmd. cbn.
    rewrite <- !app_assoc. reflexivity.
  - destruct scrape_result; cbn in Hmd; try (right; congruence).
    destruct (lookup "markdown" o); [discriminate | left; congruence].
  - destruct scrape_result; cbn in Hmd;
      try (split; [intros ->; discriminate | intros (o' & Ho & _); discriminate]).
    destruct (lookup "markdown" o) eqn:Hk; [discriminate |].
    split; [intros _; eauto | intros _; congruence].
Qed.

(** X4.  A response that is no text ([content] is [None]) or that parses to
    a number, a boolean or [null] is not a parse error for the code: it ends
    in a [TypeError] -- from [json.loads], or from [len] after the parse --
    that the page handler prints.  Nothing is saved and [all_vendors] is not
    changed. *)
Theorem unusable_response_is_page_error (link : string) (s : state W)
    (scrape_result markdown : json) (content : option string) (w1 w2 : W) :
  scrape_url app link (world s) = (Ok scrape_result, w1) ->
  getitem scrape_result "markdown" = Ok markdown ->
  chat_completions_create client "gpt-3.5-turbo"
    (check_prompt objective markdown) w1 = (Ok content, w2) ->
  (content = None \/
   exists text v, content = Some text /\ json_loads text = Ok v /\
                  py_len v = Raise TypeError) ->
  process_link json_loads json_dumps fs_write objective app client link s
    = (Ok tt,
       mkState w2 (disk s)
         (trace s ++ [Print (MsgScrape link); ScrapeUrl link; Print MsgScrapeDone;
                      ChatCreate "gpt-3.5-turbo" (check_prompt objective markdown);
                      Print (MsgPageError link TypeError)])
         (all_vendors s)).
Proof.
  intros Hscrape Hmd Hchat Hcase.
  unfold process_link, parse_and_save. unfold_monad. cbn.
  rewrite Hscrape. cbn. rewrite Hmd. cbn. rewrite Hchat. cbn.
  destruct Hcase as [-> | (text & v & -> & Hl & Hlen)]; cbn.
  - rewrite <- !app_assoc. reflexivity.
  - rewrite Hl. cbn.
    destruct v; cbn in *; try discriminate.
    all: rewrite <- !app_assoc; reflexivity.
Qed.

(** X5.  When the write of a page fails, the records of that page are not
    lost to the run: they are already appended to [all_vendors], the page
    ends normally, and the document of whichever later page saves starts
    with them.  The file is untouched when [open] failed and holds the
    partial text when [json.dump] failed. *)
Theorem failed_write_keeps_records (link : string) (s : state W) (l a : list json)
    (scrape_result markdown : json) (text : string) (w1 w2 w3 : W)
    (fault : write_result) :
  all_vendors s = JArr l ->
  scrape_url app link (world s) = (Ok scrape_result, w1) ->
  getitem scrape_result "markdown" = Ok markdown ->
  chat_completions_create client "gpt-3.5-turbo"
    (check_prompt objective markdown) w1 = (Ok (Some text), w2) ->
  json_loads text = Ok (JArr a) ->
  fs_write w2 = (fault, w3) ->
  fault <> Written ->
  let s' := snd (process_link json_loads json_dumps fs_write objective app client link s) in
  fst (process_link json_loads json_dumps fs_write objective app client link s) = Ok tt /\
  all_vendors s' = JArr (l ++ a) /\
  disk s' = match fault with DumpFailed _ partial => Some partial | _ => disk s end /\
  (forall next,
     let s'' := snd (process_link json_loads json_dumps fs_write objective app client next s') in
     exists new items,
       trace s'' = (trace s' ++ new)%list /\
       all_vendors s'' = JArr (l ++ a ++ items) /\
       (save_calls new = [] \/
        save_calls new = [vendors_doc (JArr (l ++ a ++ items))])).
Proof.
  intros Hl Hscrape Hmd Hchat Hparse Hw Hfault. cbn zeta.
  assert (Hrun :
    fst (process_link json_loads json_dumps fs_write objective app client link s) = Ok tt /\
    all_vendors (snd (process_link json_loads json_dumps fs_write objective app client link s))
      = JArr (l ++ a) /\
    disk (snd (process_link json_loads json_dumps fs_write objective app client link s))
      = match fault with DumpFailed _ partial => Some partial | _ => disk s end).
  { unfold process_link, parse_and_save. unfold_monad. cbn.
    rewrite Hscrape. cbn. rewrite Hmd. cbn. rewrite Hchat. cbn.
    rewrite Hparse. cbn. rewrite Hl. cbn. rewrite Hw.
    destruct fault as [| e | e partial]; [contradiction | |]; cbn;
      destruct (is_JSONDecodeError e); cbn; repeat split. }
  destruct Hrun as (Hr & Hav & Hd).
  split; [exact Hr |]. split; [exact Hav |]. split; [exact Hd |].
  intros next.
  destruct (process_link_summary W json_loads json_dumps fs_write app client
              objective next
              (snd (process_link json_loads json_dumps fs_write objective app client link s)))
    as (new & _ & Ht & _ & Hg & _ & Hs & _).
  rewrite Hav in Hg. apply grows_list in Hg as [items Hitems].
  exists new, items. rewrite <- app_assoc in Hitems.
  split; [exact Ht |]. split; [exact Hitems |].
  rewrite Hitems in Hs. exact Hs.
Qed.

(** ** Edges of the result file *)

(** X7.  A result file that holds a JSON object is loaded without a word:
    the value under [vendors] becomes the start of [all_vendors] whatever it
    is, and an object without that key counts as the empty list.  The file
    is not touched. *)
Theorem load_object (s : state W) (text : string) (o : list (string * json)) :
  disk s = Some text ->
  json_loads text = Ok (JObj o) ->
  let loaded := match lookup "vendors" o with Some x => x | None => JArr [] end in
  find_objective_in_top_pages json_loads json_dumps fs_write [] objective app client s
    = (Ok loaded, mkState (world s) (Some text) (trace s) loaded).
Proof.
  intros Hd Hl. cbn zeta.
  unfold find_objective_in_top_pages, load_existing. unfold_monad. cbn.
  rewrite Hd. cbn. rewrite Hl. cbn.
  destruct (lookup "vendors" o); reflexivity.
Qed.

Lemma append_chain_non_list (v : json) (vs : list json) :
  is_list v = false -> append_chain v vs -> Forall (fun x => x = v) vs.
Proof.
  intros Hv. induction vs as [| x vs IH]; cbn; [constructor |].
  intros [Hg Hc]. apply grows_from_non_list in Hg; [| exact Hv]. subst x.
  constructor; auto.
Qed.

(** X6.  When the value under [vendors] in the result file is not a list,
    no page can add a record: whatever the links and the services, the run
    returns that value as it was loaded, and every document it writes is
    that value again. *)
Theorem non_list_vendors_never_grow (links : list string) (s : state W)
    (text : string) (o : list (string * json)) (x : json) :
  disk s = Some text ->
  json_loads text = Ok (JObj o) ->
  lookup "vendors" o = Some x ->
  is_list x = false ->
  let r := find_objective_in_top_pages json_loads json_dumps fs_write
             links objective app client s in
  fst r = Ok x /\
  exists new,
    trace (snd r) = (trace s ++ new)%list /\
    scraped new = links /\
    Forall (fun doc => doc = vendors_doc x) (written_docs new).
Proof.
  intros Hd Hl Hk Hx. cbn zeta.
  unfold find_objective_in_top_pages, load_existing. unfold_monad. cbn.
  rewrite Hd. cbn. rewrite Hl. cbn. rewrite Hk. cbn.
  set (s0 := mkState (world s) (Some text) (trace s) x).
  destruct (for_each_summary W json_loads json_dumps fs_write app client
              objective links s0)
    as (new & vs & Hr & Ht & Hs & Hg & _ & Hw & Hc & _).
  destruct (for_each links _ s0) as [r s1]. cbn [fst snd] in *. subst r.
  cbn. apply grows_from_non_list in Hg; [| exact Hx].
  split; [now rewrite Hg |].
  exists new. split; [exact Ht |]. split; [exact Hs |].
  rewrite Hw. apply Forall_map.
  eapply Forall_impl; [| exact (append_chain_non_list x vs Hx Hc)].
  cbn. intros v ->. reflexivity.
Qed.

(** ** How much a run does *)

Lemma process_link_calls (link : string) (s : state W) :
  exists new,
    trace (snd (process_link json_loads json_dumps fs_write objective app client link s))
      = (trace s ++ new)%list /\
    (List.length (model_calls new) <= 1)%nat /\
    (List.length (save_calls new) <= List.length (model_calls new))%nat /\
    Forall (fun p => exists markdown, p = check_prompt objective markdown)
           (model_calls new) /\
    searches new = [] /\ alarms new = [] /\ questions new = [].
Proof.
  unfold process_link, parse_and_save. unfold_monad. cbn.
  repeat (break_match; cbn in *; try discriminate).
  all: eexists; split; [same_trace |]; cbn.
  all: repeat split; auto; try lia.
  all: repeat constructor; eauto.
Qed.

Lemma for_each_calls (links : list string) (s : state W) :
  exists new,
    trace (snd (for_each links
                  (process_link json_loads json_dumps fs_write objective app client) s))
      = (trace s ++ new)%list /\
    (List.length (model_calls new) <= List.length links)%nat /\
    (List.length (save_calls new) <= List.length (model_calls new))%nat /\
    Forall (fun p => exists markdown, p = check_prompt objective markdown)
           (model_calls new) /\
    searches new = [] /\ alarms new = [] /\ questions new = [].
Proof.
  revert s. induction links as [| link links IH]; intros s.
  - exists []. cbn. rewrite app_nil_r. repeat split; auto.
  - destruct (process_link_calls link s) as (n1 & Ht1 & Hm1 & Hs1 & Hp1 & Hq1 & Ha1 & Hi1).
    destruct (process_link_summary W json_loads json_dumps fs_write app client
                objective link s) as (n0 & Hr & _).
    cbn [for_each]. unfold bind.
    destruct (process_link _ _ _ _ _ _ link s) as [r s1]. cbn [fst snd] in *. subst r.
    destruct (IH s1) as (n2 & Ht2 & Hm2 & Hs2 & Hp2 & Hq2 & Ha2 & Hi2).
    exists (n1 ++ n2)%list.
    rewrite model_calls_app, save_calls_app, searches_app, alarms_app,
      questions_app, !length_app, Hq1, Hq2, Ha1, Ha2, Hi1, Hi2.
    cbn [List.length]. repeat split; auto; try lia.
    + rewrite Ht2, Ht1. now rewrite app_assoc.
    + apply Forall_app. split; assumption.
Qed.

(** X2.  A run over [links] scrapes at most one page per link, asks the
    model at most once per scraped page and only with the extraction prompt
    for the objective, and rewrites the file at most once per answer of the
    model.  It never calls the mapping service, never asks the user and
    never touches the alarm. *)
Theorem run_calls_bounded (links : list string) (s : state W) :
  let r := find_objective_in_top_pages json_loads json_dumps fs_write
             links objective app client s in
  exists new,
    trace (snd r) = (trace s ++ new)%list /\
    (List.length (scraped new) <= List.length links)%nat /\
    (List.length (model_calls new) <= List.length (scraped new))%nat /\
    (List.length (save_calls new) <= List.length (model_calls new))%nat /\
    Forall (fun p => exists markdown, p = check_prompt objective markdown)
           (model_calls new) /\
    searches new = [] /\ alarms new = [] /\ questions new = [].
Proof.
  cbn zeta. unfold find_objective_in_top_pages.
  unfold bind, set_all_vendors, get_all_vendors.
  set (s0 := mkState (world s) (disk s) (trace s) (JArr [])).
  destruct (load_existing_summary W json_loads s0)
    as (newL & Ht & _ & _ & _ & _ & Hcase & _).
  assert (HL : scraped newL = [] /\ model_calls newL = [] /\ save_calls newL = [] /\
               searches newL = [] /\ alarms newL = [] /\ questions newL = [])
    by (destruct Hcase as [-> | ->]; repeat split).
  destruct HL as (HL1 & HL2 & HL3 & HL4 & HL5 & HL6).
  destruct (load_existing json_loads s0) as [[[] | e] s1]; cbn [fst snd] in *.
  - destruct (for_each_calls links s1) as (new & Ht2 & Hm & Hsv & Hp & Hq & Ha & Hi).
    destruct (for_each_summary W json_loads json_dumps fs_write app client
                objective links s1) as (new' & vs & _ & Ht3 & Hsc & _).
    assert (new' = new) by (rewrite Ht3 in Ht2; now apply app_inv_head in Ht2).
    subst new'.
    destruct (for_each links _ s1) as [r s2]. cbn [fst snd] in *.
    assert (Hts : trace (snd (let (r0, s') := (r, s2) in
                match r0 with Ok _ => (Ok (all_vendors s'), s') | Raise e => (Raise e, s') end))
                  = trace s2) by (destruct r; reflexivity).
    exists (newL ++ new)%list.
    rewrite Hts, scraped_app, model_calls_app, save_calls_app, searches_app,
      alarms_app, questions_app, HL1, HL2, HL3, HL4, HL5, HL6, Hsc.
    cbn [List.app]. repeat split; auto; try lia.
    rewrite Ht2, Ht. cbn. now rewrite app_assoc.
  - exists newL. rewrite HL1, HL2, HL3, HL4, HL5, HL6. cbn.
    repeat split; auto; lia.
Qed.

(** What a run over the links never does, and what it returns when there
    is no result file. *)
Lemma run_quiet (links : list string) (s : state W) :
  exists new,
    trace (snd (find_objective_in_top_pages json_loads json_dumps fs_write
                  links objective app client s)) = (trace s ++ new)%list /\
    alarms new = [] /\ questions new = [] /\
    ~ In (Print MsgTimedOut) new.
Proof.
  unfold find_objective_in_top_pages.
  unfold bind, set_all_vendors, get_all_vendors.
  set (s0 := mkState (world s) (disk s) (trace s) (JArr [])).
  destruct (load_existing_summary W json_loads s0)
    as (newL & Ht & _ & _ & _ & _ & Hcase & _).
  assert (HL : alarms newL = [] /\ questions newL = [] /\
               ~ In (Print MsgTimedOut) newL)
    by (destruct Hcase as [-> | ->]; repeat split; cbn; intuition discriminate).
  destruct HL as (HL1 & HL2 & HL3).
  destruct (load_existing json_loads s0) as [[[] | e] s1]; cbn [fst snd] in *.
  - destruct (for_each_calls links s1) as (new & Ht2 & _ & _ & _ & _ & Ha & Hi).
    destruct (for_each_summary W json_loads json_dumps fs_write app client
                objective links s1) as (new' & vs & _ & Ht3 & _ & _ & _ & _ & _ & _ & _ & Ho).
    assert (new' = new) by (rewrite Ht3 in Ht2; now apply app_inv_head in Ht2).
    subst new'.
    destruct (for_each links _ s1) as [r s2]. cbn [fst snd] in *.
    assert (Hts : trace (snd (let (r0, s') := (r, s2) in
                match r0 with Ok _ => (Ok (all_vendors s'), s') | Raise e => (Raise e, s') end))
                  = trace s2) by (destruct r; reflexivity).
    exists (newL ++ new)%list.
    rewrite Hts, alarms_app, questions_app, HL1, HL2, Ha, Hi.
    repeat split.
    + rewrite Ht2, Ht. cbn. now rewrite app_assoc.
    + intros Hin. apply in_app_or in Hin. tauto.
  - exists newL. repeat split; auto.
Qed.


(** A run that starts from a loaded value that is not a list. *)
Lemma run_from_non_list (links : list string) (s : state W)
    (text : string) (o : list (string * json)) (x : json) :
  disk s = Some text ->
  json_loads text = Ok (JObj o) ->
  lookup "vendors" o = Some x ->
  is_list x = false ->
  exists new,
    fst (find_objective_in_top_pages json_loads json_dumps fs_write
           links objective app client s) = Ok x /\
    trace (snd (find_objective_in_top_pages json_loads json_dumps fs_write
                  links objective app client s)) = (trace s ++ new)%list /\
    scraped new = links.
Proof.
  intros Hd Hl Hk Hx.
  unfold find_objective_in_top_pages, load_existing. unfold_monad. cbn.
  rewrite Hd. cbn. rewrite Hl. cbn. rewrite Hk. cbn.
  set (s0 := mkState (world s) (Some text) (trace s) x).
  destruct (for_each_summary W json_loads json_dumps fs_write app client
              objective links s0) as (new & vs & Hr & Ht & Hs & Hg & _).
  destruct (for_each links _ s0) as [r s1]. cbn [fst snd] in *. subst r.
  cbn. apply grows_from_non_list in Hg; [| exact Hx].
  exists new. rewrite Hg. repeat split; assumption.
Qed.

(** ** Runs one after the other *)

Lemma for_each_app (l1 l2 : list string) (s : state W) :
  for_each (l1 ++ l2)
    (process_link json_loads json_dumps fs_write objective app client) s
  = for_each l2 (process_link json_loads json_dumps fs_write objective app client)
      (snd (for_each l1
              (process_link json_loads json_dumps fs_write objective app client) s)).
Proof.
  revert s. induction l1 as [| link l1 IH]; intros s; [reflexivity |].
  destruct (process_link_summary W json_loads json_dumps fs_write app client
              objective link s) as (n0 & Hr & _).
  cbn [List.app for_each]. unfold bind.
  destruct (process_link _ _ _ _ _ _ link s) as [r s1]. cbn [fst] in Hr. subst r.
  apply IH.
Qed.

Section Reliable.

(** No write to the result file ever fails. *)
Hypothesis writes_succeed : forall w, fst (fs_write w) = Written.

Lemma process_link_sync (link : string) (s : state W) :
  exists new,
    trace (snd (process_link json_loads json_dumps fs_write objective app client link s))
      = (trace s ++ new)%list /\
    ((save_calls new = [] /\
      disk (snd (process_link json_loads json_dumps fs_write objective app client link s))
        = disk s /\
      all_vendors (snd (process_link json_loads json_dumps fs_write objective app client link s))
        = all_vendors s)
     \/
     (save_calls new <> [] /\
      in_sync json_dumps
        (snd (process_link json_loads json_dumps fs_write objective app client link s)))).
Proof.
  unfold process_link, parse_and_save, in_sync. unfold_monad. cbn.
  repeat (break_match; cbn in *; try discriminate).
  all: try match goal with
       | H : fs_write ?w = (OpenFailed _, _) |- _ =>
           pose proof (writes_succeed w) as Hw; rewrite H in Hw; discriminate Hw
       | H : fs_write ?w = (DumpFailed _ _, _) |- _ =>
           pose proof (writes_succeed w) as Hw; rewrite H in Hw; discriminate Hw
       end.
  all: eexists; split; [same_trace |]; cbn.
  all: first [ left; repeat split; reflexivity
             | right; split; [discriminate | reflexivity]
             | exfalso; clash; shapes ].
Qed.

Lemma for_each_sync (links : list string) (s : state W) :
  exists new,
    trace (snd (for_each links
                  (process_link json_loads json_dumps fs_write objective app client) s))
      = (trace s ++ new)%list /\
    ((save_calls new = [] /\
      disk (snd (for_each links
                   (process_link json_loads json_dumps fs_write objective app client) s))
        = disk s /\
      all_vendors (snd (for_each links
                   (process_link json_loads json_dumps fs_write objective app client) s))
        = all_vendors s)
     \/
     (save_calls new <> [] /\
      in_sync json_dumps
        (snd (for_each links
                (process_link json_loads json_dumps fs_write objective app client) s)))).
Proof.
  revert s. induction links as [| link links IH]; intros s.
  - exists []. cbn. rewrite app_nil_r. split; [reflexivity |]. left. repeat split.
  - destruct (process_link_sync link s) as (n1 & Ht1 & H1).
    destruct (process_link_summary W json_loads json_dumps fs_write app client
                objective link s) as (n0 & Hr & _).
    cbn [for_each]. unfold bind.
    destruct (process_link _ _ _ _ _ _ link s) as [r s1]. cbn [fst snd] in *. subst r.
    destruct (IH s1) as (n2 & Ht2 & H2).
    exists (n1 ++ n2)%list. rewrite save_calls_app.
    split; [rewrite Ht2, Ht1; now rewrite app_assoc |].
    destruct H2 as [(Hs2 & Hd2 & Ha2) | (Hs2 & Hsync2)].
    + destruct H1 as [(Hs1 & Hd1 & Ha1) | (Hs1 & Hsync1)].
      * left. rewrite Hs1, Hs2. repeat split; congruence.
      * right. split.
        -- rewrite Hs2, app_nil_r. exact Hs1.
        -- unfold in_sync in *. rewrite Hd2, Ha2. exact Hsync1.
    + right. split; [| exact Hsync2].
      intros Happ. apply app_eq_nil in Happ as [_ Hn]. contradiction.
Qed.

(** X9.  When no write fails, the file and the memory agree after every run
    that saved at all: the file holds the text of [{"vendors": v}] for
    exactly the [v] the run returns.  A run that did not save leaves the
    file as it found it. *)
Theorem file_in_sync_after_save (links : list string) (s : state W) :
  let r := find_objective_in_top_pages json_loads json_dumps fs_write
             links objective app client s in
  exists new,
    trace (snd r) = (trace s ++ new)%list /\
    (save_calls new = [] -> disk (snd r) = disk s) /\
    (save_calls new <> [] ->
     exists v, fst r = Ok v /\
               disk (snd r) = Some (json_dumps (vendors_doc v))).
Proof.
  cbn zeta. unfold find_objective_in_top_pages.
  unfold bind, set_all_vendors, get_all_vendors.
  set (s0 := mkState (world s) (disk s) (trace s) (JArr [])).
  destruct (load_existing_summary W json_loads s0)
    as (newL & Ht & Hd & _ & Hsv & _ & _ & _).
  destruct (load_existing json_loads s0) as [[[] | e] s1]; cbn [fst snd] in *.
  - destruct (for_each_sync links s1) as (new & Ht2 & Hcase).
    destruct (for_each_summary W json_loads json_dumps fs_write app client
                objective links s1) as (new' & vs & Hr & _).
    destruct (for_each links _ s1) as [r s2]. cbn [fst snd] in *. subst r.
    exists (newL ++ new)%list. rewrite save_calls_app, Hsv. cbn.
    split; [rewrite Ht2, Ht; cbn; now rewrite app_assoc |].
    destruct Hcase as [(Hs & Hd2 & _) | (Hs & Hsync)].
    + split; [intros _; rewrite Hd2, Hd; reflexivity | intros Hne; contradiction].
    + split; [intros He; contradiction |].
      intros _. exists (all_vendors s2). split; [reflexivity | exact Hsync].
  - exists newL. split; [exact Ht |].
    split; [intros _; exact Hd | intros Hne; contradiction].
Qed.

(** X8.  When no write fails and the codec reads back the document it
    wrote, two runs one after the other are one run over all the links: a
    run over [l2] that starts where a run over [l1] that saved has ended
    gives the result and the state of a single run over [l1 ++ l2]. *)
Theorem two_runs_as_one (l1 l2 : list string) (s : state W) :
  let first := find_objective_in_top_pages json_loads json_dumps fs_write
                 l1 objective app client s in
  (exists new,
     trace (snd first) = (trace s ++ new)%list /\ save_calls new <> []) ->
  json_loads (json_dumps (vendors_doc (all_vendors (snd first))))
    = Ok (vendors_doc (all_vendors (snd first))) ->
  find_objective_in_top_pages json_loads json_dumps fs_write
    l2 objective app client (snd first)
  = find_objective_in_top_pages json_loads json_dumps fs_write
      (l1 ++ l2) objective app client s.
Proof.
  cbn zeta. intros (new & Hnew & Hsaved) Hround.
  unfold find_objective_in_top_pages in Hnew, Hround |- *.
  unfold bind, set_all_vendors, get_all_vendors in Hnew, Hround |- *.
  set (s0 := mkState (world s) (disk s) (trace s) (JArr [])) in *.
  destruct (load_existing_summary W json_loads s0)
    as (newL & Ht & _ & _ & Hsv & _ & _ & _).
  destruct (load_existing json_loads s0) as [[[] | e] s1]; cbn [fst snd] in *.
  - rewrite for_each_app.
    destruct (for_each_sync l1 s1) as (n2 & Ht2 & Hcase).
    destruct (for_each_summary W json_loads json_dumps fs_write app client
                objective l1 s1) as (n' & vs & Hr & _).
    destruct (for_each l1 _ s1) as [r sF]. cbn [fst snd] in *. subst r.
    cbn [fst snd] in *.
    assert (Hsplit : new = (newL ++ n2)%list).
    { rewrite Ht2, Ht in Hnew. cbn in Hnew. rewrite <- app_assoc in Hnew.
      apply app_inv_head in Hnew. now symmetry. }
    subst new. rewrite save_calls_app, Hsv in Hsaved. cbn in Hsaved.
    destruct Hcase as [(Hs & _) | (_ & Hsync)]; [contradiction |].
    unfold in_sync in Hsync.
    destruct sF as [wF dF tF vF]. cbn in Hsync, Hround. subst dF.
    unfold load_existing. unfold_monad. cbn.
    rewrite Hround. cbn. reflexivity.
  - exfalso. apply Hsaved.
    rewrite Ht in Hnew. cbn in Hnew. apply app_inv_head in Hnew. now subst new.
Qed.

End Reliable.

End More.

(** ** The whole run, further *)

Section WholeRun.

Variable W : Type.
Variable json_loads : string -> res json.
Variable json_dumps : json -> string.
Variable fs_write : W -> write_result * W.
Variable app : FirecrawlApp W.
Variable client : OpenAI W.
Variable input : string -> W -> res string * W.

(** X10.  An exception at either question of the console ends [main] at
    once: a [TimeoutError] is caught, the timeout line is printed and [main]
    returns; any other exception is passed on to the caller.  In both cases
    the alarm is cancelled and no service is called. *)
Theorem console_error_ends_main (s : state W) :
  (forall e w1,
     input "Enter the website to crawl: " (world s) = (Raise e, w1) ->
     main json_loads json_dumps input fs_write app client s
       = (if is_TimeoutError e then Ok tt else Raise e,
          mkState w1 (disk s)
            (trace s ++
             [Alarm 1800; Input "Enter the website to crawl: "] ++
             (if is_TimeoutError e then [Print MsgTimedOut] else []) ++
             [Alarm 0])
            (all_vendors s))) /\
  (forall url w1 e w2,
     input "Enter the website to crawl: " (world s) = (Ok url, w1) ->
     input "Enter your objective: " w1 = (Raise e, w2) ->
     main json_loads json_dumps input fs_write app client s
       = (if is_TimeoutError e then Ok tt else Raise e,
          mkState w2 (disk s)
            (trace s ++
             [Alarm 1800; Input "Enter the website to crawl: ";
              Input "Enter your objective: "] ++
             (if is_TimeoutError e then [Print MsgTimedOut] else []) ++
             [Alarm 0])
            (all_vendors s))).
Proof.
  split.
  - intros e w1 H1. unfold main. unfold_monad. cbn. rewrite H1. cbn.
    destruct (is_TimeoutError e); cbn; rewrite <- !app_assoc; reflexivity.
  - intros url w1 e w2 H1 H2. unfold main. unfold_monad. cbn.
    rewrite H1. cbn. rewrite H2. cbn.
    destruct (is_TimeoutError e); cbn; rewrite <- !app_assoc; reflexivity.
Qed.

(** X11.  When the ranking fails -- the model call raises, or the mapping
    call raises after it -- [main] prints the error and the no-pages line
    and returns: the result file, [all_vendors] and the pages are not
    touched, whatever was raised. *)
Theorem ranking_failure_stops_main (s : state W) (url objective : string) (w1 w2 : W) :
  input "Enter the website to crawl: " (world s) = (Ok url, w1) ->
  input "Enter your objective: " w1 = (Ok objective, w2) ->
  (forall e w3,
     chat_completions_create client "gpt-3.5-turbo" (map_prompt objective) w2
       = (Raise e, w3) ->
     main json_loads json_dumps input fs_write app client s
       = (Ok tt,
          mkState w3 (disk s)
            (trace s ++
             [Alarm 1800; Input "Enter the website to crawl: ";
              Input "Enter your objective: "; Print MsgInitiating;
              Print (MsgObjective objective); Print (MsgSearchSite url);
              Print MsgAnalyzing; ChatCreate "gpt-3.5-turbo" (map_prompt objective);
              Print (MsgMapError e); Print MsgNoPages; Alarm 0])
            (all_vendors s))) /\
  (forall content w3 e w4,
     chat_completions_create client "gpt-3.5-turbo" (map_prompt objective) w2
       = (Ok content, w3) ->
     map_url app url content w3 = (Raise e, w4) ->
     main json_loads json_dumps input fs_write app client s
       = (Ok tt,
          mkState w4 (disk s)
            (trace s ++
             [Alarm 1800; Input "Enter the website to crawl: ";
              Input "Enter your objective: "; Print MsgInitiating;
              Print (MsgObjective objective); Print (MsgSearchSite url);
              Print MsgAnalyzing; ChatCreate "gpt-3.5-turbo" (map_prompt objective);
              Print (MsgSearchParameter content); Print MsgMapping;
              MapUrl url content; Print (MsgMapError e); Print MsgNoPages;
              Alarm 0])
            (all_vendors s))).
Proof.
  intros H1 H2. split.
  - intros e w3 Hchat.
    unfold main, find_relevant_page_via_map. unfold_monad. cbn.
    rewrite H1. cbn. rewrite H2. cbn. rewrite Hchat. cbn.
    rewrite <- !app_assoc. reflexivity.
  - intros content w3 e w4 Hchat Hmap.
    unfold main, find_relevant_page_via_map. unfold_monad. cbn.
    rewrite H1. cbn. rewrite H2. cbn. rewrite Hchat. cbn. rewrite Hmap. cbn.
    rewrite <- !app_assoc. reflexivity.
Qed.

(** Between setting and cancelling the alarm, [main] does not touch it. *)
Lemma main_shape (s : state W) :
  exists r w d v middle,
    main json_loads json_dumps input fs_write app client s
      = (r, mkState w d (trace s ++ Alarm 1800 :: middle ++ [Alarm 0]) v) /\
    alarms middle = [].
Proof.
  unfold main.
  match goal with
  | |- context [@try_finally _ _ ?b _] =>
      assert (HB : forall s1 : state W,
                 exists nb, trace (snd (b s1)) = (trace s1 ++ nb)%list /\ alarms nb = []);
      [| set (body := b) in *; clearbody body]
  end.
  { intros s1. unfold_monad. cbn_main.
    destruct (input "Enter the website to crawl: " (world s1)) as [[url | e] w1]; cbn_main.
    2: { destruct (is_TimeoutError e); cbn; eexists; (split; [same_trace | reflexivity]). }
    destruct (input "Enter your objective: " w1) as [[objective | e] w2]; cbn_main.
    2: { destruct (is_TimeoutError e); cbn; eexists; (split; [same_trace | reflexivity]). }
    match goal with
    | |- context [find_relevant_page_via_map ?o ?u ?a ?c ?st] =>
        destruct (ranking_summary W a c o u st)
          as (v & nr & Hrv & Htr & _ & _ & _ & _ & Halr & _);
        destruct (find_relevant_page_via_map o u a c st) as [rv sv]
    end.
    cbn [fst snd trace] in *. subst rv.
    destruct (links_truthy v); cbn_main.
    2: { eexists. split; [rewrite Htr; same_trace |].
         repeat (cbn; rewrite ?alarms_app, ?Halr). reflexivity. }
    match goal with
    | |- context [find_objective_in_top_pages ?jl ?jd ?fw ?l ?o ?a ?c ?st] =>
        destruct (run_quiet W jl jd fw a c o l st) as (nf & Htf & Haf & _);
        destruct (find_objective_in_top_pages jl jd fw l o a c st) as [rf sf]
    end.
    cbn [fst snd trace] in *.
    destruct rf as [found | e]; cbn_main.
    - destruct (truthy found); cbn;
        [destruct (py_len found) as [n | e]; cbn; [| destruct (is_TimeoutError e); cbn] |].
      all: eexists; (split; [rewrite Htf, Htr; same_trace |]).
      all: repeat (cbn; rewrite ?alarms_app, ?Halr, ?Haf); reflexivity.
    - destruct (is_TimeoutError e); cbn.
      all: eexists; (split; [rewrite Htf, Htr; same_trace |]).
      all: repeat (cbn; rewrite ?alarms_app, ?Halr, ?Haf); reflexivity. }
  unfold bind, try_finally, emit. cbn.
  destruct (HB (mkState (world s) (disk s) (trace s ++ [Alarm 1800]) (all_vendors s)))
    as (nb & Hnb & Hal).
  destruct (body _) as [r sB]. cbn [fst snd trace] in *.
  exists r, (world sB), (disk sB), (all_vendors sB), nb.
  split; [| exact Hal].
  rewrite Hnb. rewrite <- !app_assoc. reflexivity.
Qed.

(** X13.  In every run of [main], whether it returns or raises, the alarm
    is set to 1800 seconds first and cancelled last, and it is not touched
    in between. *)
Theorem main_brackets_alarm (s : state W) :
  exists new,
    trace (snd (main json_loads json_dumps input fs_write app client s))
      = (trace s ++ new)%list /\
    hd_error new = Some (Alarm 1800) /\
    last new (Alarm 1800) = Alarm 0 /\
    alarms new = [1800; 0].
Proof.
  destruct (main_shape s) as (r & w & d & v & middle & Hmain & Hal).
  rewrite Hmain. cbn [snd trace].
  exists (Alarm 1800 :: middle ++ [Alarm 0]).
  split; [reflexivity |]. split; [reflexivity |]. split.
  - change (Alarm 1800 :: middle ++ [Alarm 0])
      with ((Alarm 1800 :: middle) ++ [Alarm 0])%list.
    apply last_last.
  - cbn. rewrite alarms_app, Hal. reflexivity.
Qed.


(** X14.  A result file whose [vendors] is a number other than zero, or
    [true]: every page is scraped, no record can be added, and at the very
    end [main] raises [TypeError], because it takes the length of what was
    loaded for its success line.  The alarm is still cancelled. *)
Theorem scalar_vendors_crash_main (s : state W) (url objective link : string)
    (links : list string) (content : option string) (text : string)
    (o : list (string * json)) (x : json) (w1 w2 w3 w4 : W) :
  input "Enter the website to crawl: " (world s) = (Ok url, w1) ->
  input "Enter your objective: " w1 = (Ok objective, w2) ->
  chat_completions_create client "gpt-3.5-turbo" (map_prompt objective) w2
    = (Ok content, w3) ->
  map_url app url content w3 = (Ok (link :: links), w4) ->
  disk s = Some text ->
  json_loads text = Ok (JObj o) ->
  lookup "vendors" o = Some x ->
  truthy x = true ->
  py_len x = Raise TypeError ->
  fst (main json_loads json_dumps input fs_write app client s) = Raise TypeError /\
  exists new,
    trace (snd (main json_loads json_dumps input fs_write app client s))
      = (trace s ++ new)%list /\
    scraped new = link :: links /\
    last new (Alarm 1800) = Alarm 0.
Proof.
  intros H1 H2 Hchat Hmap Hd Hl Hk Htruthy Hlen.
  assert (Hx : is_list x = false) by (destruct x; cbn in *; congruence).
  unfold main, find_relevant_page_via_map. unfold_monad. cbn_main.
  rewrite H1. cbn_main. rewrite H2. cbn_main. rewrite Hchat. cbn_main.
  rewrite Hmap. cbn_main.
  match goal with
  | |- context [find_objective_in_top_pages ?jl ?jd ?fw ?l ?ob ?a ?c ?st] =>
      destruct (run_from_non_list W jl jd fw a c ob l st text o x Hd Hl Hk Hx)
        as (nf & Hrf & Htf & Hsf);
      destruct (find_objective_in_top_pages jl jd fw l ob a c st) as [rf sf]
  end.
  cbn [fst snd trace] in *. subst rf. cbn_main.
  rewrite Htruthy. cbn_main. rewrite Hlen. cbn_main.
  split; [reflexivity |].
  exists ([Alarm 1800; Input "Enter the website to crawl: ";
           Input "Enter your objective: "; Print MsgInitiating;
           Print (MsgObjective objective); Print (MsgSearchSite url);
           Print MsgAnalyzing; ChatCreate "gpt-3.5-turbo" (map_prompt objective);
           Print (MsgSearchParameter content); Print MsgMapping;
           MapUrl url content; Print MsgMapDone;
           Print (MsgLocated (S (List.length links)));
           Print MsgRelevantPages] ++ nf ++ [Alarm 0])%list.
  split; [rewrite Htf; same_trace |]. split.
  - rewrite !scraped_app, Hsf. cbn. now rewrite app_nil_r.
  - rewrite app_assoc. apply last_last.
Qed.

End WholeRun.

(** ** The runs of the examples *)

Section Runs.

Import Codec Scripted Examples.

(** The object with two vendors, on top of one record already held: both
    are appended, in the order of the response. *)
Lemma response_to_records_witness :
  all_vendors two_vendors_before = JArr [vendor "Existing"] /\
  loads two_vendors_text = Ok (JObj [("vendors", JArr [vendor "A"; vendor "B"])]) /\
  all_vendors
    (snd (process_link loads dumps fs_write goal_text app client link1
            two_vendors_before))
    = JArr [vendor "Existing"; vendor "A"; vendor "B"].
Proof.
  destruct (response_to_records script loads dumps fs_write app client goal_text
              link1 two_vendors_before [vendor "Existing"]
              (JObj [("markdown", JStr "# Vendors")]) (JStr "# Vendors")
              two_vendors_text
              (mkScript [says two_vendors_text] [] [] [] [])
              (mkScript [] [] [] [] [])
              eq_refl eq_refl eq_refl eq_refl)
    as (_ & _ & Hobj & _).
  split; [reflexivity |]. split; [reflexivity |].
  exact (Hobj [("vendors", JArr [vendor "A"; vendor "B"])]
              [vendor "A"; vendor "B"] eq_refl eq_refl).
Defined.

(** A response that is the empty array adds no record, and the page saves
    all the same: the file, absent before, now holds an empty list. *)
Lemma save_without_records :
  page_yield (all_vendors no_vendors_before) (all_vendors no_vendors_after) = [] /\
  save_calls (trace no_vendors_after) = [vendors_doc (JArr [])] /\
  disk no_vendors_before = None /\
  disk no_vendors_after = Some (dumps (vendors_doc (JArr []))) /\
  ~ spec_save_iff_records no_vendors_before no_vendors_after (trace no_vendors_after).
Proof.
  split; [reflexivity |]. split; [reflexivity |].
  split; [reflexivity |]. split; [reflexivity |].
  intros [[Hsave _] _].
  apply Hsave; [discriminate | reflexivity].
Qed.

(** The model's answer [" pricing "] reaches [map_url] with its blanks. *)
Lemma search_parameter_not_trimmed :
  searches (trace (snd (run_map goal_text site padded_world))) = [Some " pricing "] /\
  spec_trimmed " pricing " = "pricing" /\
  ~ spec_search_is_trimmed " pricing " (trace (snd (run_map goal_text site padded_world))).
Proof.
  split; [reflexivity |]. split; [reflexivity |].
  unfold spec_search_is_trimmed. intros H. vm_compute in H. discriminate H.
Qed.

Lemma search_parameter_is_raw_witness :
  searches (trace (snd (run_map goal_text site padded_world))) = [Some " pricing "] /\
  fst (run_map goal_text site padded_world) = Ok (Some [link1]).
Proof.
  destruct (search_parameter_is_raw script app client goal_text site
              (start padded_world None) (Some " pricing ")
              (mkScript [] [Ok [link1]] [] [] []) eq_refl)
    as (_ & Hlinks).
  split; [reflexivity |].
  exact (proj1 (Hlinks [link1] (mkScript [] [] [] [] []) eq_refl)).
Defined.

(** The mapping call finds nothing: [main] stops at "no pages". *)
Lemma empty_ranking_stops_witness :
  fst (run_main empty_map_world None) = Ok tt /\
  disk (snd (run_main empty_map_world None)) = None /\
  scraped (trace (snd (run_main empty_map_world None))) = [] /\
  last (printed (trace (snd (run_main empty_map_world None)))) MsgInitiating
    = MsgNoPages.
Proof.
  destruct (empty_ranking_stops script loads dumps fs_write app client
              goal_text input (start empty_map_world None) site (Some "vendors")
              (mkScript [says "vendors"] [Ok []] [] [Ok goal_text] [])
              (mkScript [says "vendors"] [Ok []] [] [] [])
              (mkScript [] [Ok []] [] [] [])
              (mkScript [] [] [] [] [])
              eq_refl eq_refl eq_refl eq_refl)
    as (_ & _ & _ & Hmain & _ & _).
  unfold run_main. rewrite Hmain. repeat split.
Defined.

(** A result file that holds a top-level array: the run ends with an
    [AttributeError] that nothing catches, before the page is looked at. *)
Lemma load_non_object_aborts_witness :
  loads array_file = Ok (JArr [vendor "Existing"]) /\
  fst (run_main one_link_world (Some array_file)) = Raise AttributeError /\
  disk (snd (run_main one_link_world (Some array_file))) = Some array_file /\
  scraped (trace (snd (run_main one_link_world (Some array_file)))) = [].
Proof.
  destruct (load_non_object_aborts script loads dumps fs_write app client
              goal_text input (start one_link_world (Some array_file)) []
              array_file (JArr [vendor "Existing"]) eq_refl eq_refl eq_refl)
    as (_ & Hmain & _).
  specialize (Hmain site (Some "vendors") link1
                (mkScript [says "vendors"; says (array_of "New")] [Ok [link1]]
                          [page "# New"] [Ok goal_text] [])
                (mkScript [says "vendors"; says (array_of "New")] [Ok [link1]]
                          [page "# New"] [] [])
                (mkScript [says (array_of "New")] [Ok [link1]] [page "# New"] [] [])
                (mkScript [says (array_of "New")] [] [page "# New"] [] [])
                eq_refl eq_refl eq_refl eq_refl).
  split; [reflexivity |].
  unfold run_main. rewrite Hmain. repeat split.
Defined.

(** C9, at the point where the code departs from it.  The alarm goes off
    while the first of two pages is being fetched: the [TimeoutError] is
    caught by the handler of the page and printed as an error of that page,
    the second page is processed and saved, and the run ends with its
    success line; the timeout line is never printed.  When the alarm goes
    off during the model call of the ranking, the error is printed by the
    ranking and the run ends with "no pages".  Only outside the two
    functions, here at the console, does the alarm end the run with the
    timeout line. *)
Theorem timeout_absorbed :
  fst (run_main timeout_in_fetch_world None) = Ok tt /\
  printed (trace (snd (run_main timeout_in_fetch_world None)))
    = [MsgInitiating; MsgObjective goal_text; MsgSearchSite site; MsgAnalyzing;
       MsgSearchParameter (Some "vendors"); MsgMapping; MsgMapDone; MsgLocated 2;
       MsgRelevantPages;
       MsgScrape link1; MsgPageError link1 TimeoutError;
       MsgScrape link2; MsgScrapeDone; MsgExtracted 1; MsgSaved;
       MsgFulfilled 1] /\
  scraped (trace (snd (run_main timeout_in_fetch_world None))) = [link1; link2] /\
  written_docs (trace (snd (run_main timeout_in_fetch_world None)))
    = [vendors_doc (JArr [vendor "A"])] /\
  printed (trace (snd (run_main timeout_in_ranking_world None)))
    = [MsgInitiating; MsgObjective goal_text; MsgSearchSite site; MsgAnalyzing;
       MsgMapError TimeoutError; MsgNoPages] /\
  printed (trace (snd (run_main timeout_at_console_world None))) = [MsgTimedOut].
Proof.
  repeat split; vm_compute; reflexivity.
Qed.

(** The file holds one record and the page brings one more: the file ends
    with both, the old one first. *)
Example existing_then_new :
  written_docs (trace (snd (run_main one_link_world (Some existing_file))))
    = [vendors_doc (JArr [vendor "Existing"; vendor "New"])] /\
  option_map loads (disk (snd (run_main one_link_world (Some existing_file))))
    = Some (Ok (vendors_doc (JArr [vendor "Existing"; vendor "New"]))).
Proof.
  split; vm_compute; reflexivity.
Qed.

(** Three links, the fetch of the second fails: the records of the first
    and of the third are in the file. *)
Example second_fetch_fails :
  fst (run_pages [link1; link2; link3] goal_text three_links_world None)
    = Ok (JArr [vendor "A"; vendor "C"]) /\
  option_map loads
    (disk (snd (run_pages [link1; link2; link3] goal_text three_links_world None)))
    = Some (Ok (vendors_doc (JArr [vendor "A"; vendor "C"]))) /\
  In (Print (MsgPageError link2 RequestException))
    (trace (snd (run_pages [link1; link2; link3] goal_text three_links_world None))).
Proof.
  split; [vm_compute; reflexivity |].
  split; [vm_compute; reflexivity |].
  vm_compute. tauto.
Qed.

(** The texts of the specification's examples, under the reference decoder. *)
Example decode_examples :
  loads (array_of "Acme") = Ok (JArr [vendor "Acme"]) /\
  loads ("[" ++ q "not valid json") = Raise JSONDecodeError /\
  loads existing_file = Ok (vendors_doc (JArr [vendor "Existing"])).
Proof.
  repeat split; vm_compute; reflexivity.
Qed.

(** Three links, the fetch of the second fails: the run ends with the
    records of the first and of the third page in memory and in the file. *)
Lemma page_failure_is_contained_witness :
  for_each [link1; link2; link3]
    (process_link loads dumps fs_write goal_text app client)
    (start three_links_world None)
  = (Ok tt,
     mkState (mkScript [] [] [] [] [])
       (Some (dumps (vendors_doc (JArr [vendor "A"; vendor "C"]))))
       [Print (MsgScrape link1); ScrapeUrl link1; Print MsgScrapeDone;
        ChatCreate "gpt-3.5-turbo" (check_prompt goal_text (JStr "# A"));
        Print (MsgExtracted 1);
        Save (vendors_doc (JArr [vendor "A"])) Written; Print MsgSaved;
        Print (MsgScrape link2); ScrapeUrl link2;
        Print (MsgPageError link2 RequestException);
        Print (MsgScrape link3); ScrapeUrl link3; Print MsgScrapeDone;
        ChatCreate "gpt-3.5-turbo" (check_prompt goal_text (JStr "# C"));
        Print (MsgExtracted 1);
        Save (vendors_doc (JArr [vendor "A"; vendor "C"])) Written; Print MsgSaved]
       (JArr [vendor "A"; vendor "C"])).
Proof.
  assert (HA : loads (array_of "A") = Ok (JArr [vendor "A"])) by (vm_compute; reflexivity).
  assert (HC : loads (array_of "C") = Ok (JArr [vendor "C"])) by (vm_compute; reflexivity).
  destruct (page_failure_is_contained script loads dumps fs_write app client
              goal_text [] (start three_links_world None))
    as (_ & _ & _ & _ & _ & _ & _ & Hthree).
  exact (Hthree link1 link2 link3 (start three_links_world None)
           [] [vendor "A"] [vendor "C"]
           (JObj [("markdown", JStr "# A")]) (JStr "# A") (array_of "A")
           (JObj [("markdown", JStr "# C")]) (JStr "# C") (array_of "C")
           RequestException
           (mkScript [says (array_of "A"); says (array_of "C")] []
                     [Raise RequestException; page "# C"] [] [])
           (mkScript [says (array_of "C")] [] [Raise RequestException; page "# C"] [] [])
           (mkScript [says (array_of "C")] [] [Raise RequestException; page "# C"] [] [])
           (mkScript [says (array_of "C")] [] [page "# C"] [] [])
           (mkScript [says (array_of "C")] [] [] [] [])
           (mkScript [] [] [] [] [])
           (mkScript [] [] [] [] [])
           eq_refl eq_refl eq_refl eq_refl HA eq_refl eq_refl
           eq_refl eq_refl eq_refl HC eq_refl).
Defined.

(** A result file that is not text: reading it raises [UnicodeDecodeError],
    which the handler for [JSONDecodeError] lets through; no warning, no
    empty list. *)
Lemma load_undecodable_aborts :
  TextFile.load TextFile.not_text = Raise TextFile.UnicodeDecodeError /\
  fst TextFile.undecodable_run = Raise TextFile.UnicodeDecodeError /\
  printed (trace (snd TextFile.undecodable_run)) = [] /\
  disk (snd TextFile.undecodable_run) = Some TextFile.not_text /\
  ~ spec_load_fallback TextFile.load TextFile.undecodable_before
      TextFile.undecodable_run.
Proof.
  split; [vm_compute; reflexivity |].
  split; [vm_compute; reflexivity |].
  split; [vm_compute; reflexivity |].
  split; [vm_compute; reflexivity |].
  intros Hspec.
  destruct (Hspec TextFile.not_text eq_refl) as (Hr & _).
  - intros v Hv. vm_compute in Hv. discriminate Hv.
  - vm_compute in Hr. discriminate Hr.
Qed.

End Runs.

(** ** Further runs *)

Section MoreRuns.

Import Codec Scripted Examples Cases.

(** A scraped page that only has an [html] key. *)
Lemma missing_markdown_skips_model_witness :
  getitem (JObj [("html", JStr "<p>A</p>")]) "markdown" = Raise KeyError /\
  model_calls
    (trace (snd (process_link loads dumps fs_write goal_text app client link1
                   (start bare_page_world None)))) = [] /\
  printed
    (trace (snd (process_link loads dumps fs_write goal_text app client link1
                   (start bare_page_world None))))
    = [MsgScrape link1; MsgScrapeDone; MsgPageError link1 KeyError].
Proof.
  destruct (missing_markdown_skips_model script loads dumps fs_write app client
              goal_text link1 (start bare_page_world None)
              (JObj [("html", JStr "<p>A</p>")]) KeyError
              (mkScript [says (array_of "A")] [] [] [] [])
              eq_refl eq_refl) as (Hrun & _).
  rewrite Hrun. repeat split.
Defined.

(** The model answers [5]. *)
Lemma unusable_response_is_page_error_witness :
  loads "5" = Ok (JInt 5) /\
  save_calls
    (trace (snd (process_link loads dumps fs_write goal_text app client link1
                   (start number_world None)))) = [] /\
  printed
    (trace (snd (process_link loads dumps fs_write goal_text app client link1
                   (start number_world None))))
    = [MsgScrape link1; MsgScrapeDone; MsgPageError link1 TypeError].
Proof.
  assert (Hparse : loads "5" = Ok (JInt 5)) by (vm_compute; reflexivity).
  assert (Hcase : Some "5" = None \/
                  exists text v, Some "5" = Some text /\ loads text = Ok v /\
                                 py_len v = Raise TypeError).
  { right. exists "5", (JInt 5). split; [reflexivity |]. split; [exact Hparse | reflexivity]. }
  pose proof (unusable_response_is_page_error script loads dumps fs_write app client
                goal_text link1 (start number_world None)
                (JObj [("markdown", JStr "# A")]) (JStr "# A") (Some "5")
                (mkScript [says "5"] [] [] [] [])
                (mkScript [] [] [] [] [])
                eq_refl eq_refl eq_refl Hcase) as Hrun.
  rewrite Hrun. split; [exact Hparse | split; reflexivity].
Defined.

(** The file cannot be opened for the first page: its record is written
    with the second page's. *)
Lemma failed_write_keeps_records_witness :
  all_vendors
    (snd (process_link loads dumps fs_write goal_text app client link1
            (start locked_file_world None))) = JArr [vendor "A"] /\
  disk
    (snd (process_link loads dumps fs_write goal_text app client link1
            (start locked_file_world None))) = None /\
  written_docs
    (trace (snd (run_pages [link1; link2] goal_text locked_file_world None)))
    = [vendors_doc (JArr [vendor "A"; vendor "B"])].
Proof.
  assert (Hparse : loads (array_of "A") = Ok (JArr [vendor "A"]))
    by (vm_compute; reflexivity).
  assert (Hfault : OpenFailed OSError <> Written) by discriminate.
  destruct (failed_write_keeps_records script loads dumps fs_write app client
              goal_text link1 (start locked_file_world None) [] [vendor "A"]
              (JObj [("markdown", JStr "# A")]) (JStr "# A") (array_of "A")
              (mkScript [says (array_of "A"); says (array_of "B")] []
                        [page "# B"] [] [OpenFailed OSError])
              (mkScript [says (array_of "B")] [] [page "# B"] [] [OpenFailed OSError])
              (mkScript [says (array_of "B")] [] [page "# B"] [] [])
              (OpenFailed OSError)
              eq_refl eq_refl eq_refl eq_refl Hparse eq_refl Hfault)
    as (_ & Hav & Hd & _).
  split; [exact Hav |]. split; [exact Hd |]. vm_compute. reflexivity.
Defined.

(** A result file whose [vendors] is a text: two pages with one record each
    add nothing. *)
Lemma non_list_vendors_never_grow_witness :
  loads text_vendors_file = Ok (JObj [("vendors", JStr "none yet")]) /\
  fst (run_pages [link1; link2] goal_text two_pages_world (Some text_vendors_file))
    = Ok (JStr "none yet").
Proof.
  assert (Hparse : loads text_vendors_file = Ok (JObj [("vendors", JStr "none yet")]))
    by (vm_compute; reflexivity).
  destruct (non_list_vendors_never_grow script loads dumps fs_write app client
              goal_text [link1; link2] (start two_pages_world (Some text_vendors_file))
              text_vendors_file [("vendors", JStr "none yet")] (JStr "none yet")
              eq_refl Hparse eq_refl eq_refl) as (Hr & _).
  split; [exact Hparse | exact Hr].
Defined.

(** A result file with other keys only: the run starts from the empty list. *)
Lemma load_object_witness :
  loads other_keys_file = Ok (JObj [("sellers", JArr [vendor "Existing"])]) /\
  run_pages [] goal_text two_pages_world (Some other_keys_file)
    = (Ok (JArr []),
       mkState two_pages_world (Some other_keys_file) [] (JArr [])).
Proof.
  assert (Hparse : loads other_keys_file
                   = Ok (JObj [("sellers", JArr [vendor "Existing"])]))
    by (vm_compute; reflexivity).
  split; [exact Hparse |].
  exact (load_object script loads dumps fs_write app client goal_text
           (start two_pages_world (Some other_keys_file)) other_keys_file
           [("sellers", JArr [vendor "Existing"])] eq_refl Hparse).
Defined.

(** Two pages on a file system that never fails: the file holds what the run
    returns. *)
Lemma file_in_sync_after_save_witness :
  disk (snd (find_objective_in_top_pages loads dumps reliable [link1; link2]
               goal_text app client (start two_pages_world None)))
    = Some (dumps (vendors_doc (JArr [vendor "A"; vendor "B"]))).
Proof.
  destruct (file_in_sync_after_save script loads dumps reliable app client goal_text
              (fun w => eq_refl) [link1; link2] (start two_pages_world None))
    as (new & Ht & _ & Hsaved).
  cbn [start trace List.app] in Ht. rewrite <- Ht in Hsaved.
  destruct Hsaved as (v & Hv & Hdisk); [vm_compute; discriminate |].
  vm_compute in Hv. injection Hv as <-. exact Hdisk.
Defined.

(** A run over the first link and then a run over the second, against a run
    over both. *)
Lemma two_runs_as_one_witness :
  fst (find_objective_in_top_pages loads dumps reliable [link2] goal_text app client
         (snd (find_objective_in_top_pages loads dumps reliable [link1] goal_text
                 app client (start two_pages_world None))))
    = Ok (JArr [vendor "A"; vendor "B"]).
Proof.
  assert (Hsaved : exists new,
            trace (snd (find_objective_in_top_pages loads dumps reliable [link1]
                          goal_text app client (start two_pages_world None)))
              = (trace (start two_pages_world None) ++ new)%list /\
            save_calls new <> []).
  { eexists. split; [reflexivity |]. vm_compute. discriminate. }
  assert (Hround :
            loads (dumps (vendors_doc (all_vendors
              (snd (find_objective_in_top_pages loads dumps reliable [link1]
                      goal_text app client (start two_pages_world None))))))
            = Ok (vendors_doc (all_vendors
              (snd (find_objective_in_top_pages loads dumps reliable [link1]
                      goal_text app client (start two_pages_world None))))))
    by (vm_compute; reflexivity).
  rewrite (two_runs_as_one script loads dumps reliable app client goal_text
             (fun w => eq_refl) [link1] [link2] (start two_pages_world None)
             Hsaved Hround).
  vm_compute. reflexivity.
Defined.

(** The mapping service is down. *)
Lemma ranking_failure_stops_main_witness :
  fst (run_main map_down_world None) = Ok tt /\
  printed (trace (snd (run_main map_down_world None)))
    = [MsgInitiating; MsgObjective goal_text; MsgSearchSite site; MsgAnalyzing;
       MsgSearchParameter (Some "vendors"); MsgMapping;
       MsgMapError RequestException; MsgNoPages].
Proof.
  destruct (ranking_failure_stops_main script loads dumps fs_write app client input
              (start map_down_world None) site goal_text
              (mkScript [says "vendors"] [Raise RequestException] [] [Ok goal_text] [])
              (mkScript [says "vendors"] [Raise RequestException] [] [] [])
              eq_refl eq_refl) as (_ & Hmap).
  unfold run_main.
  rewrite (Hmap (Some "vendors")
             (mkScript [] [Raise RequestException] [] [] [])
             RequestException (mkScript [] [] [] [] []) eq_refl eq_refl).
  split; reflexivity.
Defined.


(** A result file that says [{"vendors": 3}], one link to process. *)
Lemma scalar_vendors_crash_main_witness :
  loads number_vendors_file = Ok (JObj [("vendors", JInt 3)]) /\
  fst (run_main one_link_world (Some number_vendors_file)) = Raise TypeError /\
  scraped (trace (snd (run_main one_link_world (Some number_vendors_file)))) = [link1].
Proof.
  assert (Hparse : loads number_vendors_file = Ok (JObj [("vendors", JInt 3)]))
    by (vm_compute; reflexivity).
  destruct (scalar_vendors_crash_main script loads dumps fs_write app client input
              (start one_link_world (Some number_vendors_file))
              site goal_text link1 [] (Some "vendors") number_vendors_file
              [("vendors", JInt 3)] (JInt 3)
              (mkScript [says "vendors"; says (array_of "New")] [Ok [link1]]
                        [page "# New"] [Ok goal_text] [])
              (mkScript [says "vendors"; says (array_of "New")] [Ok [link1]]
                        [page "# New"] [] [])
              (mkScript [says (array_of "New")] [Ok [link1]] [page "# New"] [] [])
              (mkScript [says (array_of "New")] [] [page "# New"] [] [])
              eq_refl eq_refl eq_refl eq_refl eq_refl Hparse eq_refl eq_refl eq_refl)
    as (Hr & _).
  split; [exact Hparse |]. split; [exact Hr |]. vm_compute. reflexivity.
Defined.

End MoreRuns.
